(** * ISO 8601 week dates: a shallow embedding of package [week]

    The development follows [src/week.go].  Go's [int] is modelled as [Z]
    with the 64-bit wrap-around written out ([GoInt]); errors of
    [github.com/pkg/errors] as a small inductive type ([errors]); the part
    of the standard [time] package that the code calls as day arithmetic on
    the proleptic Gregorian calendar ([time]).  The helpers of the package
    that live outside [week.go] ([isLeapYear], [weeksInYear],
    [checkYearAndWeek], [encodeISOWeekDate], [decodeISOWeekDate]) are
    modelled from the specification and marked as such. *)

From Stdlib Require Import ZArith List Bool Lia.
From Stdlib.Strings Require Import String Byte.
Import ListNotations.
Open Scope Z_scope.

(** ** Go's [int] on a 64-bit platform *)

Module GoInt.

Definition minInt : Z := - 2 ^ 63.
Definition maxInt : Z := 2 ^ 63 - 1.

(** Two's complement wrap-around of an exact result. *)
Definition wrap (z : Z) : Z := (z + 2 ^ 63) mod 2 ^ 64 - 2 ^ 63.

Definition add (x y : Z) : Z := wrap (x + y).
Definition sub (x y : Z) : Z := wrap (x - y).
Definition mul (x y : Z) : Z := wrap (x * y).

(** [x / y] truncates toward zero; the caller guarantees [y <> 0]. *)
Definition quo (x y : Z) : Z := wrap (Z.quot x y).

Definition inRange (z : Z) : Prop := minInt <= z <= maxInt.

End GoInt.

(** ** Errors: [errors.New], [errors.Wrap] and the validation errors *)

Module errors.

(** The error kinds that the validation and the text codec report. *)
Inductive kind : Type :=
| InvalidYear
| InvalidWeek
| FormatError.

Inductive error : Type :=
| Validation (k : kind)
| New (msg : string)
| Wrap (cause : error) (msg : string).

(** [errors.Cause]: the innermost error of a chain of wrappers. *)
Fixpoint Cause (e : error) : error :=
  match e with
  | Wrap c _ => Cause c
  | _ => e
  end.

End errors.

Import errors.

(** What a call does: it returns, or it panics (a crash of the process
    unless recovered). *)
Inductive outcome (A : Type) : Type :=
| Ret (a : A)
| Panic (msg : string)
| OutOfFuel.

Arguments Ret {A} a.
Arguments Panic {A} msg.
Arguments OutOfFuel {A}.

(** [OutOfFuel] belongs to the model only: a loop of the code is run with
    a bounded number of iterations, and [OutOfFuel] says that the bound was
    reached before the loop exited. *)

Definition bind {A B : Type} (c : outcome A) (k : A -> outcome B) : outcome B :=
  match c with
  | Ret a => k a
  | Panic msg => Panic msg
  | OutOfFuel => OutOfFuel
  end.

Notation "x <- c ;; k" := (bind c (fun x => k))
  (at level 61, c at next level, right associativity).

(** ** Byte slices: [len], [data[i]] and [data[lo:hi]] with their run-time
    checks

    Go checks the upper bound of a slice expression against the capacity;
    the package only slices within the length, where the two agree. *)

Definition len (data : list byte) : Z := Z.of_nat (List.length data).

Definition index (data : list byte) (i : Z) : outcome byte :=
  if (i <? 0) || (len data <=? i)
  then Panic "index out of range"
  else Ret (nth (Z.to_nat i) data x00).

Definition slice (data : list byte) (lo hi : Z) : outcome (list byte) :=
  if (lo <? 0) || (hi <? lo) || (len data <? hi)
  then Panic "slice bounds out of range"
  else Ret (firstn (Z.to_nat (hi - lo)) (skipn (Z.to_nat lo) data)).

(** ** The [time] package, restricted to what [week.go] calls

    The package is Go's standard library, not part of the repository; the
    definitions follow its implementation.  A [time.Time] is represented
    by the number of its calendar day in its own location, day 0 being
    Monday 1 January of year 1 (proleptic Gregorian calendar); every
    operation that [week.go] uses depends on the day only. *)

Module time.

Definition Time : Type := Z.

Definition Weekday : Type := Z.
Definition Sunday : Weekday := 0.
Definition Monday : Weekday := 1.
Definition Tuesday : Weekday := 2.
Definition Wednesday : Weekday := 3.
Definition Thursday : Weekday := 4.
Definition Friday : Weekday := 5.
Definition Saturday : Weekday := 6.

Definition isLeap (year : Z) : bool :=
  (year mod 4 =? 0) && (negb (year mod 100 =? 0) || (year mod 400 =? 0)).

Definition daysIn (year : Z) : Z := if isLeap year then 366 else 365.

(** Days from 1 January of year 1 to 1 January of [year]. *)
Definition daysSinceEpoch (year : Z) : Z :=
  let y := year - 1 in
  365 * y + y / 4 - y / 100 + y / 400.

(** [daysBefore[m]]: days of a non-leap year before month [m + 1]. *)
Definition daysBefore : list Z :=
  [0; 31; 59; 90; 120; 151; 181; 212; 243; 273; 304; 334; 365].

(** [time.Date(year, month, day, 0, 0, 0, 0, time.UTC)]: the month is
    normalised into 1..12, the day is added as it is (it may lie outside
    the month). *)
Definition Date (year month day : Z) : Time :=
  let m := month - 1 in
  let year := year + m / 12 in
  let m := m mod 12 in
  let d := daysSinceEpoch year + nth (Z.to_nat m) daysBefore 0 in
  let d := if isLeap year && (2 <=? m) then d + 1 else d in
  d + (day - 1).

(** [t.Weekday()]. *)
Definition weekday (t : Time) : Weekday := (t + 1) mod 7.

Definition daysPer400Years : Z := 365 * 400 + 97.
Definition daysPer100Years : Z := 365 * 100 + 24.
Definition daysPer4Years : Z := 365 * 4 + 1.

(** [absDate]: the year and the zero-based day of the year of a day,
    by cutting off 400-, 100-, 4- and 1-year cycles. *)
Definition absDate (t : Time) : Z * Z :=
  let d := t in
  let n := d / daysPer400Years in
  let y := 400 * n in
  let d := d - daysPer400Years * n in
  let n := d / daysPer100Years in
  let n := n - Z.shiftr n 2 in
  let y := y + 100 * n in
  let d := d - daysPer100Years * n in
  let n := d / daysPer4Years in
  let y := y + 4 * n in
  let d := d - daysPer4Years * n in
  let n := d / 365 in
  let n := n - Z.shiftr n 2 in
  let y := y + n in
  let d := d - 365 * n in
  (y + 1, d).

(** [t.ISOWeek()]: the year and the week of the Thursday of [t]'s week. *)
Definition ISOWeek (t : Time) : Z * Z :=
  let d := Thursday - weekday t in
  let d := if d =? 4 then -3 else d in
  let '(year, yday) := absDate (t + d) in
  (year, yday / 7 + 1).

End time.

(** ** Helpers of the package that are not in [week.go] *)

(** Modelled from the spec: [isLeapYear] is called by [normalizeOrdinal]
    and named by the long-year rule of section 4.2, its body is missing
    from the sources; the Gregorian rule, with Go's remainder. *)
Definition isLeapYear (year : Z) : bool :=
  (Z.rem year 4 =? 0) && (negb (Z.rem year 100 =? 0) || (Z.rem year 400 =? 0)).

(** Modelled from the spec: [weeksInYear] is missing from the sources;
    section 4.2 states the ISO 8601 long-year rule: a year has 53 weeks
    iff 1 January of that year falls on a Thursday, or 31 December falls on
    a Thursday, and 52 weeks otherwise.  The arithmetic test that the same
    sentence gives as an equivalent is [longYearFormula] below; it is not
    one, see [weeksInYear_formula_2004]. *)
Definition weeksInYear (year : Z) : Z :=
  if (time.weekday (time.Date year 1 1) =? time.Thursday)
     || (time.weekday (time.Date year 12 31) =? time.Thursday)
  then 53 else 52.

(** Modelled from the spec: section 4.2,
    [p(year) = (year + year/4 - year/100 + year/400) mod 7], with Go's
    truncating division and remainder. *)
Definition p (year : Z) : Z :=
  Z.rem (year + Z.quot year 4 - Z.quot year 100 + Z.quot year 400) 7.

(** Modelled from the spec: the arithmetic test that section 4.2 gives as
    an equivalent of the long-year rule,
    [p(year) == 4 || p(year) == 3 && isLeapYear(year)]. *)
Definition longYearFormula (year : Z) : bool :=
  (p year =? 4) || ((p year =? 3) && isLeapYear year).

(** Modelled from the spec: [checkYearAndWeek] is missing from the sources;
    section 4.1, [validate(year, week) -> ok | InvalidYear | InvalidWeek]:
    the year within 0..9999, the week within 1..weeksInYear(year). *)
Definition checkYearAndWeek (year week : Z) : option error :=
  if (year <? 0) || (year >? 9999) then Some (Validation InvalidYear)
  else if (week <? 1) || (week >? weeksInYear year) then Some (Validation InvalidWeek)
  else None.

(** Modelled from the spec: the decimal digits of the zero-padded fields
    of section 4.5; one ASCII digit. *)
Definition digitByte (n : Z) : byte :=
  match Byte.of_N (Z.to_N (48 + n)) with
  | Some b => b
  | None => x30
  end.

(** Modelled from the spec: the value of a byte that is an ASCII digit
    (section 4.5, "pure ASCII digits"). *)
Definition digitValue (b : byte) : option Z :=
  let n := Z.of_N (Byte.to_N b) in
  if (48 <=? n) && (n <=? 57) then Some (n - 48) else None.

(** Modelled from the spec: the value of a run of ASCII digits, most
    significant first. *)
Fixpoint digitsValue (acc : Z) (bs : list byte) : option Z :=
  match bs with
  | [] => Some acc
  | b :: bs' =>
      match digitValue b with
      | Some d => digitsValue (10 * acc + d) bs'
      | None => None
      end
  end.

(** Modelled from the spec: [encodeISOWeekDate] is missing from the
    sources; section 4.5: fails only if validation fails, otherwise the 8
    bytes [YYYY-Www], year and week zero-padded. *)
Definition encodeISOWeekDate (year week : Z) : list byte * option error :=
  match checkYearAndWeek year week with
  | Some err => ([], Some err)
  | None =>
      ([digitByte (year / 1000); digitByte (year / 100 mod 10);
        digitByte (year / 10 mod 10); digitByte (year mod 10);
        x2d; x57;
        digitByte (week / 10); digitByte (week mod 10)], None)
  end.

(** Modelled from the spec: [decodeISOWeekDate] is missing from the
    sources; section 4.5: fails if the length is not 8, if the byte at
    offset 4 is not [-] or the byte at offset 5 is not [W], if year or week
    are not ASCII digits, or if the decoded pair fails validation. *)
Definition decodeISOWeekDate (data : list byte) : Z * Z * option error :=
  match data with
  | [y1; y2; y3; y4; sep; wch; w1; w2] =>
      if negb (Byte.eqb sep x2d) || negb (Byte.eqb wch x57)
      then (0, 0, Some (Validation FormatError))
      else
        match digitsValue 0 [y1; y2; y3; y4], digitsValue 0 [w1; w2] with
        | Some year, Some week =>
            match checkYearAndWeek year week with
            | Some err => (0, 0, Some err)
            | None => (year, week, None)
            end
        | _, _ => (0, 0, Some (Validation FormatError))
        end
  | _ => (0, 0, Some (Validation FormatError))
  end.

(** ** [week.go] *)

Record Week : Type := mkWeek { year : Z; week : Z }.

(** [Week{}]. *)
Definition zeroWeek : Week := mkWeek 0 0.

Definition New (yr wk : Z) : Week * option error :=
  match checkYearAndWeek yr wk with
  | Some err => (zeroWeek, Some err)
  | None => (mkWeek yr wk, None)
  end.

Definition Year (w : Week) : Z := year w.

(** The method [Week]. *)
Definition Week' (w : Week) : Z := week w.

(** [int(math.Sqrt(float64(x)))]: the conversions and the square root are
    exact on the perfect squares below [2 ^ 53], which is where [Sub] uses
    them for years of the supported range. *)
Definition sqrtInt (x : Z) : Z := Z.sqrt x.

(** The [for] loop of [Sub]; [iters] counts the passes through its body. *)
Fixpoint subLoop (fuel : nat) (yearA yearB weekA weekB diff iters : Z)
  : outcome (Z * Z) :=
  match fuel with
  | O => OutOfFuel
  | S fuel' =>
      if yearA >? yearB
      then Panic "infinite loop guard: yearA should never be more than yearB"
      else if negb (yearA =? yearB)
      then subLoop fuel' (GoInt.add yearA 1) yearB weekA weekB
             (GoInt.add diff (weeksInYear yearA)) (iters + 1)
      else Ret (GoInt.add diff (GoInt.sub weekB weekA), iters + 1)
  end.

Definition direction (yearDiff : Z) : Z :=
  if negb (yearDiff =? 0)
  then GoInt.quo (sqrtInt (GoInt.mul yearDiff yearDiff)) yearDiff
  else 1.

(** [Sub] up to its [return]: the accumulated difference with its sign,
    and the number of passes through the loop.  From [yearA <= yearB] the
    loop exits within [yearB - yearA + 1] passes, and with [yearA > yearB]
    it panics in the first. *)
Definition subWalk (w u : Week) : outcome (Z * Z) :=
  let yearDiff := GoInt.sub (year u) (year w) in
  let direction := direction yearDiff in
  let smallerWeek := if direction =? -1 then u else w in
  let biggerWeek := if direction =? -1 then w else u in
  let yearA := year smallerWeek in
  let yearB := year biggerWeek in
  let weekA := week smallerWeek in
  let weekB := week biggerWeek in
  r <- subLoop (S (Z.to_nat (yearB - yearA))) yearA yearB weekA weekB 0 0 ;;
  Ret (GoInt.mul (fst r) direction, snd r).

Definition Sub (w u : Week) : outcome Z :=
  r <- subWalk w u ;; Ret (fst r).

(** The [for] loop of [add]. *)
Fixpoint addLoop (fuel : nat) (sign year week maxWeeks : Z) : outcome (Z * Z) :=
  match fuel with
  | O => OutOfFuel
  | S fuel' =>
      if (week >? maxWeeks) || (week <? 0)
      then
        let year := GoInt.add year sign in
        let week := if sign =? 1 then GoInt.sub week maxWeeks else week in
        let maxWeeks := weeksInYear year in
        let week := if sign =? -1 then GoInt.add week maxWeeks else week in
        addLoop fuel' sign year week maxWeeks
      else Ret (year, week)
  end.

(** [add]; the loop is run for at most [|weeksToAdd| + 2] passes, which
    [add_target] below shows to be enough for every valid receiver. *)
Definition add (w : Week) (weeksToAdd : Z) : outcome (Week * option error) :=
  let sign := if weeksToAdd <? 0 then -1 else 1 in
  let year0 := year w in
  let week0 := GoInt.add (week w) weeksToAdd in
  let maxWeeks := weeksInYear (year w) in
  r <- addLoop (Z.to_nat (Z.abs weeksToAdd) + 2) sign year0 week0 maxWeeks ;;
  let '(year1, week1) := r in
  if week1 =? 0
  then
    let year2 := GoInt.add year1 sign in
    Ret (New year2 (weeksInYear year2))
  else Ret (New year1 week1).

Definition Add (w : Week) (weeks : Z) : outcome (Week * option error) :=
  add w weeks.

Definition Next (w : Week) : outcome (Week * option error) := Add w 1.

Definition Previous (w : Week) : outcome (Week * option error) := Add w (-1).

(** The methods with a pointer receiver that assign to it take the
    receiver's value and return its value after the call. *)
Definition UnmarshalJSON (w : Week) (data : list byte)
  : outcome (Week * option error) :=
  first <- index data 0 ;;
  notLiteral <-
    (if negb (Byte.eqb first x22) then Ret true
     else last <- index data (len data - 1) ;; Ret (negb (Byte.eqb last x22))) ;;
  if notLiteral : bool
  then Ret (w, Some (errors.New "unable to unmarshal json: string literal expected"))
  else
    inner <- slice data 1 (len data - 1) ;;
    let '(year, week, err) := decodeISOWeekDate inner in
    match err with
    | Some err => Ret (w, Some (Wrap err "unable to unmarshal json"))
    | None => Ret (mkWeek year week, None)
    end.

Definition MarshalJSON (w : Week) : list byte * option error :=
  let '(raw, err) := encodeISOWeekDate (year w) (week w) in
  match err with
  | Some err => ([], Some (Wrap err "unable to marshal json"))
  | None => (([] ++ [x22]) ++ raw ++ [x22], None)
  end.

Definition UnmarshalText (w : Week) (data : list byte) : Week * option error :=
  let '(year, week, err) := decodeISOWeekDate data in
  match err with
  | Some err => (w, Some (Wrap err "unable to unmarshal text"))
  | None => (mkWeek year week, None)
  end.

Definition MarshalText (w : Week) : list byte * option error :=
  let '(text, err) := encodeISOWeekDate (year w) (week w) in
  match err with
  | Some err => ([], Some (Wrap err "unable to marshal text"))
  | None => (text, None)
  end.

Definition Value (w : Week) : list byte * option error :=
  let '(text, err) := encodeISOWeekDate (year w) (week w) in
  match err with
  | Some err => ([], Some (Wrap err "unable to create value"))
  | None => (text, None)
  end.

(** The dynamic type of the [interface{}] that [Scan] receives: the types
    of a [driver.Value]. *)
Inductive any : Type :=
| AnyNil
| AnyInt64 (val : Z)
| AnyBool (val : bool)
| AnyBytes (val : list byte)
| AnyString (val : string)
| AnyTime (val : time.Time).

Definition Scan (w : Week) (src : any) : Week * option error :=
  match src with
  | AnyString val =>
      let '(year, week, err) := decodeISOWeekDate (list_byte_of_string val) in
      match err with
      | Some err => (w, Some (Wrap err "unable to scan value"))
      | None => (mkWeek year week, None)
      end
  | AnyBytes val =>
      let '(year, week, err) := decodeISOWeekDate val in
      match err with
      | Some err => (w, Some (Wrap err "unable to scan value"))
      | None => (mkWeek year week, None)
      end
  | _ => (w, Some (errors.New "unable to scan value: incompatible type"))
  end.

Definition FromTime (t : time.Time) : Week :=
  let '(year, week) := time.ISOWeek t in
  mkWeek year week.

Definition convertToISOWeekday (weekday : time.Weekday) : Z :=
  if weekday =? time.Sunday then 7 else weekday.

Definition normalizeOrdinal (year ordinal : Z) : Z * Z :=
  let daysInYear := 365 in
  if ordinal <? 1
  then
    let daysInYear := if isLeapYear (GoInt.sub year 1) then 366 else daysInYear in
    (GoInt.sub year 1, GoInt.add daysInYear ordinal)
  else
    let daysInYear := if isLeapYear year then 366 else daysInYear in
    if ordinal >? daysInYear
    then (GoInt.add year 1, GoInt.sub ordinal daysInYear)
    else (year, ordinal).

Definition Time (w : Week) (weekday : time.Weekday) : time.Time :=
  let isoWeekday := convertToISOWeekday weekday in
  let jan4th := time.Date (Year w) 1 4 in
  let correction := GoInt.add (convertToISOWeekday (time.weekday jan4th)) 3 in
  let ordinal := GoInt.sub (GoInt.add (GoInt.mul (Week' w) 7) isoWeekday) correction in
  let '(year, ordinal) := normalizeOrdinal (Year w) ordinal in
  time.Date year 1 ordinal.


(** ** Notions used to state the properties *)

(** A week that passes [checkYearAndWeek]. *)
Definition valid (w : Week) : Prop :=
  0 <= year w <= 9999 /\ 1 <= week w <= weeksInYear (year w).

(** The weeks of the [n] years from [start] on. *)
Fixpoint weeksFrom (start : Z) (n : nat) : Z :=
  match n with
  | O => 0
  | S n' => weeksInYear start + weeksFrom (start + 1) n'
  end.

(** The weeks between the start of year 0 and the start of year [y]
    (negative before year 0). *)
Definition weeksBefore (y : Z) : Z :=
  if 0 <=? y then weeksFrom 0 (Z.to_nat y) else - weeksFrom y (Z.to_nat (- y)).

(** The position of a week on the time line: week 1 of year 0 is 1, and
    consecutive weeks have consecutive positions. *)
Definition weekIndex (w : Week) : Z := weeksBefore (year w) + week w.

(** [a] is chronologically before [b]. *)
Definition before (a b : Week) : Prop :=
  year a < year b \/ (year a = year b /\ week a < week b).

(** The first and the last position of the supported range. *)
Definition firstIndex : Z := 1.
Definition lastIndex : Z := weeksBefore 10000.

(** Weeks that need not have passed validation (the zero week, the weeks
    of [FromTime]): years within [2 ^ 25] of year 0, on whose differences
    the square root of [Sub] is exact. *)
Definition bounded (w : Week) : Prop :=
  - 2 ^ 25 <= year w <= 2 ^ 25 /\ - 2 ^ 40 <= week w <= 2 ^ 40.

(** The day on which week 1 of a year starts: the Monday of the week of
    4 January. *)
Definition firstMonday (y : Z) : time.Time :=
  time.daysSinceEpoch y + 4
  - convertToISOWeekday (time.weekday (time.daysSinceEpoch y + 3)).

(** ** Machine integers *)

Lemma wrap_small (z : Z) :
  GoInt.minInt <= z <= GoInt.maxInt -> GoInt.wrap z = z.
Proof.
  unfold GoInt.minInt, GoInt.maxInt, GoInt.wrap. intros H.
  rewrite Z.mod_small; lia.
Qed.

Lemma wrap_range (z : Z) : GoInt.minInt <= GoInt.wrap z <= GoInt.maxInt.
Proof.
  unfold GoInt.minInt, GoInt.maxInt, GoInt.wrap.
  pose proof (Z.mod_pos_bound (z + 2 ^ 63) (2 ^ 64) ltac:(lia)). lia.
Qed.

Lemma wrap_shift (z : Z) : GoInt.wrap (z - 2 ^ 64) = GoInt.wrap z.
Proof.
  unfold GoInt.wrap.
  replace (z - 2 ^ 64 + 2 ^ 63) with (z + 2 ^ 63 + (-1) * 2 ^ 64) by lia.
  now rewrite Z.mod_add by lia.
Qed.

Ltac unwrap :=
  unfold GoInt.add, GoInt.sub, GoInt.mul, GoInt.quo;
  repeat match goal with
    | |- context [GoInt.wrap ?z] =>
        rewrite (wrap_small z) by (unfold GoInt.minInt, GoInt.maxInt; lia)
    end.

(** ** The calendar *)

Lemma weeksInYear_range (y : Z) : 52 <= weeksInYear y <= 53.
Proof. unfold weeksInYear. destruct (_ || _); lia. Qed.

Lemma weeksFrom_snoc (n : nat) :
  forall start, weeksFrom start (S n) = weeksFrom start n + weeksInYear (start + Z.of_nat n).
Proof.
  induction n as [|n IH]; intros start.
  - cbn [weeksFrom Z.of_nat]. rewrite !Z.add_0_r. lia.
  - change (weeksFrom start (S (S n)))
      with (weeksInYear start + weeksFrom (start + 1) (S n)).
    rewrite IH. cbn [weeksFrom].
    replace (start + 1 + Z.of_nat n) with (start + Z.of_nat (S n)) by lia. lia.
Qed.

Lemma weeksBefore_succ (y : Z) :
  weeksBefore (y + 1) = weeksBefore y + weeksInYear y.
Proof.
  unfold weeksBefore.
  destruct (Z.leb_spec 0 y) as [Hy|Hy].
  - destruct (Z.leb_spec 0 (y + 1)); [|lia].
    replace (Z.to_nat (y + 1)) with (S (Z.to_nat y)) by lia.
    rewrite weeksFrom_snoc.
    replace (0 + Z.of_nat (Z.to_nat y)) with y by lia. reflexivity.
  - replace (Z.to_nat (- y)) with (S (Z.to_nat (- (y + 1)))) by lia.
    cbn [weeksFrom].
    destruct (Z.leb_spec 0 (y + 1)) as [Hy'|Hy'].
    + replace (y + 1) with 0 by lia. cbn [Z.to_nat Z.opp weeksFrom]. lia.
    + lia.
Qed.

Lemma weeksBefore_span (n : nat) :
  forall y, 52 * Z.of_nat n <= weeksBefore (y + Z.of_nat n) - weeksBefore y <= 53 * Z.of_nat n.
Proof.
  induction n as [|n IH]; intros y.
  - rewrite Z.add_0_r. lia.
  - replace (y + Z.of_nat (S n)) with (y + Z.of_nat n + 1) by lia.
    rewrite weeksBefore_succ.
    pose proof (weeksInYear_range (y + Z.of_nat n)). specialize (IH y). lia.
Qed.

Lemma weeksBefore_le (y1 y2 : Z) :
  y1 <= y2 ->
  52 * (y2 - y1) <= weeksBefore y2 - weeksBefore y1 <= 53 * (y2 - y1).
Proof.
  intros H. pose proof (weeksBefore_span (Z.to_nat (y2 - y1)) y1) as Hs.
  replace (y1 + Z.of_nat (Z.to_nat (y2 - y1))) with y2 in Hs by lia.
  lia.
Qed.

Lemma weekIndex_before (a b : Week) :
  1 <= week a <= weeksInYear (year a) ->
  1 <= week b <= weeksInYear (year b) ->
  before a b -> weekIndex a < weekIndex b.
Proof.
  intros Ha Hb [Hlt | [Heq Hlt]]; unfold weekIndex.
  - pose proof (weeksBefore_le (year a + 1) (year b) ltac:(lia)).
    pose proof (weeksBefore_succ (year a)). lia.
  - rewrite Heq. lia.
Qed.

Lemma before_trichotomy (a b : Week) : before a b \/ a = b \/ before b a.
Proof.
  destruct a as [ya wa], b as [yb wb]. unfold before. simpl.
  destruct (Z.lt_trichotomy ya yb) as [H | [H | H]]; [lia | | lia].
  destruct (Z.lt_trichotomy wa wb) as [H' | [H' | H']]; [lia | | lia].
  right. left. subst. reflexivity.
Qed.

Lemma weekIndex_inj (a b : Week) :
  1 <= week a <= weeksInYear (year a) ->
  1 <= week b <= weeksInYear (year b) ->
  weekIndex a = weekIndex b -> a = b.
Proof.
  intros Ha Hb Heq.
  destruct (before_trichotomy a b) as [H | [H | H]]; [| assumption |].
  - pose proof (weekIndex_before a b Ha Hb H). lia.
  - pose proof (weekIndex_before b a Hb Ha H). lia.
Qed.

(** ** [Sub] *)

Lemma direction_sign (yd : Z) :
  - 2 ^ 31 <= yd <= 2 ^ 31 -> direction yd = if yd <? 0 then -1 else 1.
Proof.
  intros Hb. unfold direction, sqrtInt.
  destruct (Z.eqb_spec yd 0) as [-> | Hne]; [reflexivity|]. cbn [negb].
  assert (Hsq : 0 <= yd * yd <= 2 ^ 62) by nia.
  unfold GoInt.mul. rewrite wrap_small by (unfold GoInt.minInt, GoInt.maxInt; lia).
  destruct (Z.ltb_spec yd 0) as [Hneg | Hpos].
  - replace (yd * yd) with ((- yd) * (- yd)) by lia.
    rewrite Z.sqrt_square by lia.
    unfold GoInt.quo. rewrite Z.quot_opp_l, Z.quot_same by lia.
    apply wrap_small. unfold GoInt.minInt, GoInt.maxInt. lia.
  - rewrite Z.sqrt_square by lia.
    unfold GoInt.quo. rewrite Z.quot_same by lia.
    apply wrap_small. unfold GoInt.minInt, GoInt.maxInt. lia.
Qed.

Lemma subLoop_unfold (fuel : nat) (yearA yearB weekA weekB diff iters : Z) :
  subLoop (S fuel) yearA yearB weekA weekB diff iters
  = if yearA >? yearB
    then Panic "infinite loop guard: yearA should never be more than yearB"
    else if negb (yearA =? yearB)
    then subLoop fuel (GoInt.add yearA 1) yearB weekA weekB
           (GoInt.add diff (weeksInYear yearA)) (iters + 1)
    else Ret (GoInt.add diff (GoInt.sub weekB weekA), iters + 1).
Proof. reflexivity. Qed.

Lemma subLoop_walk (n : nat) :
  forall yearA yearB weekA weekB diff iters,
    yearB - yearA = Z.of_nat n ->
    - 2 ^ 40 <= yearA -> yearB <= 2 ^ 40 ->
    0 <= diff -> diff + 53 * Z.of_nat n <= 2 ^ 60 ->
    - 2 ^ 40 <= weekA <= 2 ^ 40 -> - 2 ^ 40 <= weekB <= 2 ^ 40 ->
    subLoop (S n) yearA yearB weekA weekB diff iters
    = Ret (diff + (weeksBefore yearB - weeksBefore yearA) + (weekB - weekA),
           iters + Z.of_nat n + 1).
Proof.
  induction n as [|n IH]; intros yearA yearB weekA weekB diff iters Hn HA HB Hd Hd' HwA HwB.
  - assert (yearA = yearB) by lia. subst yearB.
    rewrite subLoop_unfold.
    destruct (Z.gtb_spec yearA yearA); [lia|].
    rewrite Z.eqb_refl. cbn [negb].
    unwrap. f_equal. f_equal; lia.
  - rewrite subLoop_unfold.
    destruct (Z.gtb_spec yearA yearB); [lia|].
    destruct (Z.eqb_spec yearA yearB); [lia|]. cbn [negb].
    pose proof (weeksInYear_range yearA).
    unwrap. rewrite IH by lia.
    rewrite weeksBefore_succ. f_equal. f_equal; lia.
Qed.

Lemma subWalk_valid (a b : Week) :
  valid a -> valid b ->
  subWalk a b = Ret (weekIndex b - weekIndex a, Z.abs (year a - year b) + 1).
Proof.
  intros [Hya Hwa] [Hyb Hwb].
  pose proof (weeksInYear_range (year a)). pose proof (weeksInYear_range (year b)).
  unfold subWalk.
  assert (Hyd : GoInt.sub (year b) (year a) = year b - year a) by (unwrap; reflexivity).
  rewrite Hyd, direction_sign by lia.
  destruct (Z.ltb_spec (year b - year a) 0) as [Hlt | Hge].
  - cbn [Z.eqb Pos.eqb Z.opp].
    rewrite (subLoop_walk (Z.to_nat (year a - year b))) by lia.
    cbn [bind fst snd].
    pose proof (weeksBefore_le (year b) (year a) ltac:(lia)).
    unwrap. unfold weekIndex. f_equal. f_equal; lia.
  - cbn [Z.eqb].
    rewrite (subLoop_walk (Z.to_nat (year b - year a))) by lia.
    cbn [bind fst snd].
    pose proof (weeksBefore_le (year a) (year b) ltac:(lia)).
    unwrap. unfold weekIndex. f_equal. f_equal; lia.
Qed.

(** ** [add] *)

Lemma addLoop_unfold (fuel : nat) (sign yr wk maxWeeks : Z) :
  addLoop (S fuel) sign yr wk maxWeeks
  = if (wk >? maxWeeks) || (wk <? 0)
    then
      addLoop fuel sign (GoInt.add yr sign)
        (if sign =? -1
         then GoInt.add (if sign =? 1 then GoInt.sub wk maxWeeks else wk)
                (weeksInYear (GoInt.add yr sign))
         else if sign =? 1 then GoInt.sub wk maxWeeks else wk)
        (weeksInYear (GoInt.add yr sign))
    else Ret (yr, wk).
Proof. reflexivity. Qed.

(** Going forward: the loop stops in the year that holds the week. *)
Lemma addLoop_forward (fuel : nat) :
  forall yr wk,
    1 <= wk <= 2 ^ 63 -> wk <= 52 * Z.of_nat fuel ->
    - 2 ^ 40 <= yr -> 52 * yr + wk <= 2 ^ 63 + 2 ^ 40 ->
    exists y' w',
      addLoop fuel 1 yr wk (weeksInYear yr) = Ret (y', w')
      /\ 1 <= w' <= weeksInYear y'
      /\ weeksBefore y' + w' = weeksBefore yr + wk.
Proof.
  induction fuel as [|fuel IH]; intros yr wk Hwk Hfuel Hyr Hinv; [lia|].
  rewrite addLoop_unfold. cbn [Z.eqb Pos.eqb].
  pose proof (weeksInYear_range yr) as HW.
  destruct (Z.gtb_spec wk (weeksInYear yr)) as [Hgt | Hle].
  - cbn [orb]. unwrap.
    destruct (IH (yr + 1) (wk - weeksInYear yr)) as (y' & w' & Hrun & Hw' & Hidx);
      try lia.
    exists y', w'. rewrite Hrun. repeat split; try lia.
    rewrite Hidx, weeksBefore_succ. lia.
  - destruct (Z.ltb_spec wk 0); [lia|]. cbn [orb].
    exists yr, wk. repeat split; lia.
Qed.

(** Going backward: the loop stops in the year that holds the week, or
    with week 0 in the year after it. *)
Lemma addLoop_backward (fuel : nat) :
  forall yr wk,
    wk <= weeksInYear yr ->
    (1 <= fuel)%nat -> - wk <= 52 * (Z.of_nat fuel - 1) ->
    yr <= 2 ^ 40 -> - 2 ^ 63 - 2 ^ 40 <= 52 * yr + wk ->
    GoInt.minInt <= wk ->
    exists y' w',
      addLoop fuel (-1) yr wk (weeksInYear yr) = Ret (y', w')
      /\ 0 <= w' <= weeksInYear y'
      /\ weeksBefore y' + w' = weeksBefore yr + wk
      /\ - 2 ^ 62 <= y' <= yr.
Proof.
  induction fuel as [|fuel IH]; intros yr wk Hwk Hf1 Hfuel Hyr Hinv Hmin; [lia|].
  rewrite addLoop_unfold. cbn [Z.eqb Pos.eqb].
  pose proof (weeksInYear_range yr) as HW.
  pose proof (weeksInYear_range (yr - 1)) as HW'.
  destruct (Z.gtb_spec wk (weeksInYear yr)) as [Hgt | Hle]; [lia|].
  destruct (Z.ltb_spec wk 0) as [Hneg | Hpos]; cbn [orb].
  - unfold GoInt.minInt in Hmin.
    assert (Hy : GoInt.add yr (-1) = yr - 1) by (unwrap; lia).
    rewrite Hy. unwrap.
    destruct (IH (yr - 1) (wk + weeksInYear (yr - 1))) as (y' & w' & Hrun & Hw' & Hidx & Hy');
      try (unfold GoInt.minInt; lia).
    exists y', w'. rewrite Hrun. repeat split; try lia.
    rewrite Hidx. pose proof (weeksBefore_succ (yr - 1)) as Hs.
    replace (yr - 1 + 1) with yr in Hs by lia. lia.
  - exists yr, wk. repeat split; lia.
Qed.

Lemma weeksBefore_0 : weeksBefore 0 = 0.
Proof. reflexivity. Qed.

Lemma index_between (lo hi y w : Z) :
  1 <= w <= weeksInYear y ->
  lo <= hi ->
  (lo <= y <= hi <-> weeksBefore lo + 1 <= weeksBefore y + w <= weeksBefore (hi + 1)).
Proof.
  intros Hw Hlh. split.
  - intros Hy.
    pose proof (weeksBefore_le lo y ltac:(lia)) as H0.
    pose proof (weeksBefore_le (y + 1) (hi + 1) ltac:(lia)) as H1.
    pose proof (weeksBefore_succ y). lia.
  - intros Hidx.
    destruct (Z.lt_ge_cases y lo) as [Hneg | Hnn].
    + pose proof (weeksBefore_le (y + 1) lo ltac:(lia)) as H0.
      pose proof (weeksBefore_succ y). lia.
    + destruct (Z.le_gt_cases y hi) as [Hle | Hgt]; [lia|].
      pose proof (weeksBefore_le (hi + 1) y ltac:(lia)). lia.
Qed.

(** A week lies in the supported years iff its position lies between the
    positions of their first and last week. *)
Lemma index_in_range (y w : Z) :
  1 <= w <= weeksInYear y ->
  (0 <= y <= 9999 <-> firstIndex <= weeksBefore y + w <= lastIndex).
Proof.
  intros Hw. exact (index_between 0 9999 y w Hw ltac:(lia)).
Qed.

(** [add] hands to [New] the week [weeksToAdd] positions after [w]. *)
Lemma add_target (w : Week) (weeksToAdd : Z) :
  valid w -> GoInt.inRange weeksToAdd ->
  exists y' w',
    add w weeksToAdd = Ret (New y' w')
    /\ 1 <= w' <= weeksInYear y'
    /\ weeksBefore y' + w' = weekIndex w + weeksToAdd.
Proof.
  intros [Hy Hw] [Hlo Hhi]. unfold GoInt.minInt in Hlo. unfold GoInt.maxInt in Hhi.
  pose proof (weeksInYear_range (year w)) as HW.
  unfold add, weekIndex.
  destruct (Z.ltb_spec weeksToAdd 0) as [Hneg | Hpos].
  - (* backward *)
    assert (Hw0 : GoInt.add (week w) weeksToAdd = week w + weeksToAdd) by (unwrap; lia).
    rewrite Hw0.
    destruct (addLoop_backward (Z.to_nat (Z.abs weeksToAdd) + 2) (year w)
                (week w + weeksToAdd))
      as (y' & w' & Hrun & Hw' & Hidx & Hy'); try (unfold GoInt.minInt; lia).
    rewrite Hrun. cbn [bind].
    destruct (Z.eqb_spec w' 0) as [-> | Hnz].
    + assert (Hyy : GoInt.add y' (-1) = y' - 1).
      { unwrap. lia. }
      rewrite Hyy.
      exists (y' - 1), (weeksInYear (y' - 1)).
      pose proof (weeksInYear_range (y' - 1)).
      pose proof (weeksBefore_succ (y' - 1)) as Hs.
      replace (y' - 1 + 1) with y' in Hs by lia.
      repeat split; lia.
    + exists y', w'. repeat split; lia.
  - (* forward *)
    destruct (Z.le_gt_cases (week w + weeksToAdd) (2 ^ 63 - 1)) as [Hfit | Hover].
    + assert (Hw0 : GoInt.add (week w) weeksToAdd = week w + weeksToAdd) by (unwrap; lia).
      rewrite Hw0.
      destruct (addLoop_forward (Z.to_nat (Z.abs weeksToAdd) + 2) (year w)
                  (week w + weeksToAdd))
        as (y' & w' & Hrun & Hw' & Hidx); try lia.
      rewrite Hrun. cbn [bind].
      destruct (Z.eqb_spec w' 0); [lia|].
      exists y', w'. repeat split; lia.
    + (* the sum wraps around; the first pass through the loop undoes it *)
      assert (Hw0 : GoInt.add (week w) weeksToAdd = week w + weeksToAdd - 2 ^ 64).
      { unfold GoInt.add. rewrite <- wrap_shift. apply wrap_small.
        unfold GoInt.minInt, GoInt.maxInt. lia. }
      rewrite Hw0.
      replace (Z.to_nat (Z.abs weeksToAdd) + 2)%nat
        with (S (Z.to_nat (Z.abs weeksToAdd) + 1)) by lia.
      rewrite addLoop_unfold. cbn [Z.eqb Pos.eqb].
      destruct (Z.ltb_spec (week w + weeksToAdd - 2 ^ 64) 0); [|lia].
      rewrite orb_true_r.
      assert (Hy1 : GoInt.add (year w) 1 = year w + 1) by (unwrap; lia).
      assert (Hw1 : GoInt.sub (week w + weeksToAdd - 2 ^ 64) (weeksInYear (year w))
                    = week w + weeksToAdd - weeksInYear (year w)).
      { unfold GoInt.sub.
        replace (week w + weeksToAdd - 2 ^ 64 - weeksInYear (year w))
          with (week w + weeksToAdd - weeksInYear (year w) - 2 ^ 64) by lia.
        rewrite wrap_shift. apply wrap_small.
        unfold GoInt.minInt, GoInt.maxInt. lia. }
      rewrite Hy1, Hw1.
      destruct (addLoop_forward (Z.to_nat (Z.abs weeksToAdd) + 1) (year w + 1)
                  (week w + weeksToAdd - weeksInYear (year w)))
        as (y' & w' & Hrun & Hw' & Hidx); try lia.
      rewrite Hrun. cbn [bind].
      destruct (Z.eqb_spec w' 0); [lia|].
      exists y', w'. repeat split; try lia.
      rewrite Hidx, weeksBefore_succ. lia.
Qed.

(** ** The calendar of the [time] package *)

Lemma isLeap_true (y : Z) :
  time.isLeap y = true <-> y mod 4 = 0 /\ (y mod 100 <> 0 \/ y mod 400 = 0).
Proof.
  unfold time.isLeap.
  rewrite andb_true_iff, orb_true_iff, negb_true_iff, !Z.eqb_eq, Z.eqb_neq. tauto.
Qed.

Lemma isLeap_false (y : Z) :
  time.isLeap y = false <-> ~ (y mod 4 = 0 /\ (y mod 100 <> 0 \/ y mod 400 = 0)).
Proof. rewrite <- isLeap_true. destruct (time.isLeap y); split; congruence. Qed.

Ltac leap_cases y :=
  let L := fresh "Hleap" in
  destruct (time.isLeap y) eqn:L;
  [apply isLeap_true in L | apply isLeap_false in L].

(** Go's remainder and the mathematical one vanish together. *)
Lemma rem_zero_mod (a b : Z) : 0 < b -> (Z.rem a b =? 0) = (a mod b =? 0).
Proof.
  intros Hb.
  destruct (Z.eqb_spec (Z.rem a b) 0) as [H | H];
    destruct (Z.eqb_spec (a mod b) 0) as [H' | H']; try reflexivity; exfalso;
    revert H H'; Z.to_euclidean_division_equations; nia.
Qed.

Lemma isLeapYear_isLeap (y : Z) : isLeapYear y = time.isLeap y.
Proof.
  unfold isLeapYear, time.isLeap. now rewrite !rem_zero_mod by lia.
Qed.

Lemma daysIn_range (y : Z) : 365 <= time.daysIn y <= 366.
Proof. unfold time.daysIn. destruct (time.isLeap y); lia. Qed.

Lemma daysSinceEpoch_succ (y : Z) :
  time.daysSinceEpoch (y + 1) = time.daysSinceEpoch y + time.daysIn y.
Proof.
  unfold time.daysSinceEpoch, time.daysIn. cbv zeta.
  replace (y + 1 - 1) with y by lia.
  leap_cases y; Z.div_mod_to_equations; lia.
Qed.

Lemma daysSinceEpoch_mono (y1 y2 : Z) :
  y1 < y2 -> time.daysSinceEpoch y1 + time.daysIn y1 <= time.daysSinceEpoch y2.
Proof.
  intros H. rewrite <- daysSinceEpoch_succ.
  unfold time.daysSinceEpoch. cbv zeta. Z.div_mod_to_equations. lia.
Qed.

(** [absDate] finds the year that holds the day, and the day's place in it. *)
Lemma absDate_sound (t y o : Z) :
  time.absDate t = (y, o) ->
  t = time.daysSinceEpoch y + o /\ 0 <= o < time.daysIn y.
Proof.
  unfold time.absDate, time.daysPer400Years, time.daysPer100Years, time.daysPer4Years.
  cbv zeta. rewrite !Z.shiftr_div_pow2 by lia. change (2 ^ 2) with 4.
  intros E. apply pair_equal_spec in E. destruct E as [Hy Ho].
  unfold time.daysSinceEpoch, time.daysIn. cbv zeta.
  leap_cases y; Z.div_mod_to_equations; lia.
Qed.

Lemma absDate_complete (y o : Z) :
  0 <= o < time.daysIn y -> time.absDate (time.daysSinceEpoch y + o) = (y, o).
Proof.
  intros Ho. destruct (time.absDate (time.daysSinceEpoch y + o)) as [y' o'] eqn:E.
  apply absDate_sound in E. destruct E as [E Ho'].
  destruct (Z.lt_trichotomy y y') as [H | [H | H]].
  - pose proof (daysSinceEpoch_mono y y' H). lia.
  - subst y'. f_equal. lia.
  - pose proof (daysSinceEpoch_mono y' y H). lia.
Qed.

Lemma Date_january (y d : Z) :
  time.Date y 1 d = time.daysSinceEpoch y + (d - 1).
Proof.
  unfold time.Date. cbv zeta.
  change (1 - 1) with 0. change (0 / 12) with 0. change (0 mod 12) with 0.
  change (2 <=? 0) with false. rewrite andb_false_r, !Z.add_0_r.
  change (nth (Z.to_nat 0) time.daysBefore 0) with 0. lia.
Qed.

Lemma Date_december_31 (y : Z) :
  time.Date y 12 31 = time.daysSinceEpoch y + time.daysIn y - 1.
Proof.
  unfold time.Date, time.daysIn. cbv zeta.
  change (12 - 1) with 11. change (11 / 12) with 0. change (11 mod 12) with 11.
  change (2 <=? 11) with true. rewrite andb_true_r, !Z.add_0_r.
  change (nth (Z.to_nat 11) time.daysBefore 0) with 334.
  destruct (time.isLeap y); lia.
Qed.

(** The long-year rule on day numbers. *)
Lemma weeksInYear_53 (y : Z) :
  weeksInYear y = 53 <->
  (time.daysSinceEpoch y + 1) mod 7 = 4
  \/ (time.daysSinceEpoch y + time.daysIn y) mod 7 = 4.
Proof.
  unfold weeksInYear. rewrite Date_january, Date_december_31.
  unfold time.weekday, time.Thursday.
  replace (time.daysSinceEpoch y + (1 - 1) + 1) with (time.daysSinceEpoch y + 1) by lia.
  replace (time.daysSinceEpoch y + time.daysIn y - 1 + 1)
    with (time.daysSinceEpoch y + time.daysIn y) by lia.
  destruct (Z.eqb_spec ((time.daysSinceEpoch y + 1) mod 7) 4);
    destruct (Z.eqb_spec ((time.daysSinceEpoch y + time.daysIn y) mod 7) 4);
    cbn [orb]; split; intros; try lia; tauto.
Qed.

(** On the years from 0 on, [p] is the weekday of 31 December. *)
Lemma p_december_31 (y : Z) :
  0 <= y -> p y = time.daysSinceEpoch (y + 1) mod 7.
Proof.
  intros Hy. unfold p, time.daysSinceEpoch. cbv zeta.
  replace (y + 1 - 1) with y by lia.
  rewrite !Z.quot_div_nonneg by lia.
  rewrite Z.rem_mod_nonneg.
  - Z.div_mod_to_equations. lia.
  - Z.div_mod_to_equations. lia.
  - lia.
Qed.

Lemma weeksInYear_formula (y : Z) :
  0 <= y ->
  (weeksInYear y = 53 <-> p y = 4 \/ (p y = 5 /\ isLeapYear y = true)).
Proof.
  intros Hy. rewrite weeksInYear_53, p_december_31, isLeapYear_isLeap by lia.
  rewrite daysSinceEpoch_succ. unfold time.daysIn.
  destruct (time.isLeap y); Z.div_mod_to_equations; intuition (try congruence; lia).
Qed.

(** ** [Time] and [FromTime] *)

Lemma weekday_range (t : Z) : 0 <= time.weekday t <= 6.
Proof. unfold time.weekday. pose proof (Z.mod_pos_bound (t + 1) 7). lia. Qed.

Lemma convertToISOWeekday_range (wd : Z) :
  0 <= wd <= 6 -> 1 <= convertToISOWeekday wd <= 7.
Proof.
  intros H. unfold convertToISOWeekday, time.Sunday.
  destruct (Z.eqb_spec wd 0); lia.
Qed.

Lemma convertToISOWeekday_mod (wd : Z) :
  0 <= wd <= 6 -> convertToISOWeekday wd mod 7 = wd.
Proof.
  intros H. unfold convertToISOWeekday, time.Sunday.
  destruct (Z.eqb_spec wd 0) as [-> | Hne]; [reflexivity|].
  apply Z.mod_small. lia.
Qed.

(** [normalizeOrdinal] names the same day, in the year before or after
    where the ordinal leaves the year. *)
Lemma normalizeOrdinal_day (y o : Z) :
  - 2 ^ 40 <= y <= 2 ^ 40 -> - 2 ^ 50 <= o <= 2 ^ 50 ->
  time.daysSinceEpoch (fst (normalizeOrdinal y o)) + snd (normalizeOrdinal y o)
  = time.daysSinceEpoch y + o.
Proof.
  intros Hy Ho. unfold normalizeOrdinal. cbv zeta.
  destruct (Z.ltb_spec o 1).
  - assert (Hy1 : GoInt.sub y 1 = y - 1) by (unwrap; lia).
    rewrite Hy1, isLeapYear_isLeap. cbn [fst snd].
    pose proof (daysSinceEpoch_succ (y - 1)) as Hs.
    replace (y - 1 + 1) with y in Hs by lia.
    unfold time.daysIn in Hs.
    destruct (time.isLeap (y - 1)); unwrap; lia.
  - rewrite isLeapYear_isLeap.
    pose proof (daysSinceEpoch_succ y) as Hs. unfold time.daysIn in Hs.
    destruct (time.isLeap y);
      match goal with |- context [?a >? ?b] => destruct (Z.gtb_spec a b) end;
      cbn [fst snd]; unwrap; lia.
Qed.

(** The day that [Time] returns: the Monday of the week of 4 January, plus
    the weeks and the days asked for. *)
Lemma Time_day (w : Week) (wd : Z) :
  - 2 ^ 40 <= year w <= 2 ^ 40 -> - 2 ^ 40 <= week w <= 2 ^ 40 -> 0 <= wd <= 6 ->
  Time w wd
  = time.daysSinceEpoch (year w) + 7 * week w + convertToISOWeekday wd
    - convertToISOWeekday (time.weekday (time.daysSinceEpoch (year w) + 3)) - 4.
Proof.
  intros Hy Hw Hwd. unfold Time, Year, Week'. cbv zeta.
  rewrite Date_january. replace (4 - 1) with 3 by lia.
  pose proof (convertToISOWeekday_range wd Hwd) as Hk.
  pose proof (convertToISOWeekday_range _ (weekday_range (time.daysSinceEpoch (year w) + 3))) as Hj.
  set (k := convertToISOWeekday wd) in *.
  set (j := convertToISOWeekday (time.weekday (time.daysSinceEpoch (year w) + 3))) in *.
  assert (Hord : GoInt.sub (GoInt.add (GoInt.mul (week w) 7) k) (GoInt.add j 3)
                 = week w * 7 + k - (j + 3)) by (unwrap; lia).
  rewrite Hord.
  pose proof (normalizeOrdinal_day (year w) (week w * 7 + k - (j + 3)) Hy ltac:(lia)) as Hn.
  destruct (normalizeOrdinal (year w) (week w * 7 + k - (j + 3))) as [y' o'].
  cbn [fst snd] in Hn. rewrite Date_january. lia.
Qed.

(** The weeks on which the conversion to a day and back is the identity:
    the weeks up to 52, and week 53 of a long year. *)
Lemma FromTime_Time_week (w : Week) (wd : Z) :
  - 2 ^ 40 <= year w <= 2 ^ 40 ->
  1 <= week w <= weeksInYear (year w) ->
  0 <= wd <= 6 ->
  FromTime (Time w wd) = w.
Proof.
  intros Hy Hw Hwd.
  pose proof (weeksInYear_range (year w)) as HW.
  rewrite Time_day by lia.
  unfold FromTime, time.ISOWeek. cbv zeta.
  pose proof (convertToISOWeekday_range wd Hwd) as Hk.
  pose proof (convertToISOWeekday_mod wd Hwd) as Hkm.
  pose proof (weekday_range (time.daysSinceEpoch (year w) + 3)) as Hj0.
  pose proof (convertToISOWeekday_range _ Hj0) as Hj.
  pose proof (convertToISOWeekday_mod _ Hj0) as Hjm.
  set (B := time.daysSinceEpoch (year w)) in *.
  set (k := convertToISOWeekday wd) in *.
  set (j := convertToISOWeekday (time.weekday (B + 3))) in *.
  assert (Hjw : j mod 7 = (B + 4) mod 7).
  { rewrite Hjm. unfold time.weekday. f_equal. lia. }
  assert (Hwday : time.weekday (B + 7 * week w + k - j - 4) = wd).
  { unfold time.weekday. rewrite <- Hkm.
    revert Hjw. Z.div_mod_to_equations. lia. }
  rewrite Hwday.
  assert (Hshift :
    B + 7 * week w + k - j - 4
    + (if time.Thursday - wd =? 4 then -3 else time.Thursday - wd)
    = B + (7 * week w - j)).
  { unfold time.Thursday. unfold k, convertToISOWeekday, time.Sunday.
    destruct (Z.eqb_spec wd 0) as [-> | Hne].
    - cbn [Z.sub Z.add Z.opp Z.eqb Pos.eqb]. lia.
    - destruct (Z.eqb_spec (4 - wd) 4); lia. }
  rewrite Hshift.
  assert (Hlong : week w = 53 -> 7 * week w - j < time.daysIn (year w)).
  { intros H53. assert (H : weeksInYear (year w) = 53) by lia.
    apply weeksInYear_53 in H. fold B in H. unfold time.daysIn in *.
    revert H Hjw. destruct (time.isLeap (year w)); Z.div_mod_to_equations; lia. }
  pose proof (daysIn_range (year w)).
  unfold B. rewrite absDate_complete by lia.
  destruct w as [y wk]. cbn [year week] in *. f_equal.
  Z.div_mod_to_equations. lia.
Qed.

(** [FromTime] never returns a week beyond the last week of its year. *)
Lemma FromTime_week_range (t : time.Time) :
  1 <= week (FromTime t) <= weeksInYear (year (FromTime t)).
Proof.
  unfold FromTime, time.ISOWeek. cbv zeta.
  set (d := if time.Thursday - time.weekday t =? 4 then -3
            else time.Thursday - time.weekday t).
  assert (Hthu : (t + d + 1) mod 7 = 4).
  { unfold d, time.Thursday, time.weekday.
    destruct (Z.eqb_spec (4 - (t + 1) mod 7) 4); Z.div_mod_to_equations; lia. }
  destruct (time.absDate (t + d)) as [y o] eqn:E. cbn [year week].
  apply absDate_sound in E. destruct E as [E Ho].
  pose proof (weeksInYear_range y) as HW.
  destruct (Z.le_gt_cases 364 o) as [Hlast | Hearly].
  - assert (H53 : weeksInYear y = 53).
    { apply weeksInYear_53. rewrite E in Hthu. unfold time.daysIn in *.
      revert Hthu. destruct (time.isLeap y); Z.div_mod_to_equations; lia. }
    pose proof (daysIn_range y). Z.div_mod_to_equations. lia.
  - Z.div_mod_to_equations. lia.
Qed.

(** ** Validation and the text codec *)

Lemma checkYearAndWeek_ok (y w : Z) :
  checkYearAndWeek y w = None <-> 0 <= y <= 9999 /\ 1 <= w <= weeksInYear y.
Proof.
  unfold checkYearAndWeek.
  destruct (Z.ltb_spec y 0), (Z.gtb_spec y 9999); cbn [orb];
    try (split; [discriminate | lia]).
  destruct (Z.ltb_spec w 1), (Z.gtb_spec w (weeksInYear y)); cbn [orb];
    try (split; [discriminate | lia]).
  split; [lia | reflexivity].
Qed.

Lemma checkYearAndWeek_year (y w : Z) :
  ~ 0 <= y <= 9999 -> checkYearAndWeek y w = Some (Validation InvalidYear).
Proof.
  intros H. unfold checkYearAndWeek.
  destruct (Z.ltb_spec y 0), (Z.gtb_spec y 9999); cbn [orb]; try reflexivity; lia.
Qed.

Lemma checkYearAndWeek_week (y w : Z) :
  0 <= y <= 9999 -> ~ 1 <= w <= weeksInYear y ->
  checkYearAndWeek y w = Some (Validation InvalidWeek).
Proof.
  intros Hy H. unfold checkYearAndWeek.
  destruct (Z.ltb_spec y 0), (Z.gtb_spec y 9999); cbn [orb]; try lia.
  destruct (Z.ltb_spec w 1), (Z.gtb_spec w (weeksInYear y)); cbn [orb];
    try reflexivity; lia.
Qed.

Lemma New_ok (y w : Z) :
  0 <= y <= 9999 -> 1 <= w <= weeksInYear y -> New y w = (mkWeek y w, None).
Proof.
  intros Hy Hw. unfold New.
  now rewrite (proj2 (checkYearAndWeek_ok y w) (conj Hy Hw)).
Qed.

Lemma New_year (y w : Z) :
  ~ 0 <= y <= 9999 -> New y w = (zeroWeek, Some (Validation InvalidYear)).
Proof. intros H. unfold New. now rewrite checkYearAndWeek_year. Qed.

Lemma digitValue_digitByte (n : Z) :
  0 <= n <= 9 -> digitValue (digitByte n) = Some n.
Proof.
  intros H. rewrite <- (Z2Nat.id n) by lia.
  assert (Hk : (Z.to_nat n < 10)%nat) by lia.
  revert Hk. generalize (Z.to_nat n) as k. intros k Hk.
  do 10 (destruct k as [|k]; [reflexivity|]). lia.
Qed.

Lemma digitValue_range (b : byte) (d : Z) :
  digitValue b = Some d -> 0 <= d <= 9.
Proof.
  unfold digitValue.
  destruct (Z.leb_spec 48 (Z.of_N (Byte.to_N b))), (Z.leb_spec (Z.of_N (Byte.to_N b)) 57);
    cbn [andb]; try discriminate.
  intros E. injection E as <-. lia.
Qed.

(** A token decodes to the pair [(y, w)] exactly when validation accepts
    the pair that its digits spell. *)
Lemma decode_token (a b c d e f : Z) :
  0 <= a <= 9 -> 0 <= b <= 9 -> 0 <= c <= 9 -> 0 <= d <= 9 ->
  0 <= e <= 9 -> 0 <= f <= 9 ->
  decodeISOWeekDate
    [digitByte a; digitByte b; digitByte c; digitByte d; x2d; x57;
     digitByte e; digitByte f]
  = match checkYearAndWeek (1000 * a + 100 * b + 10 * c + d) (10 * e + f) with
    | Some err => (0, 0, Some err)
    | None => (1000 * a + 100 * b + 10 * c + d, 10 * e + f, None)
    end.
Proof.
  intros Ha Hb Hc Hd He Hf. unfold decodeISOWeekDate.
  change (negb (Byte.eqb x2d x2d) || negb (Byte.eqb x57 x57)) with false.
  cbn [digitsValue]. rewrite !digitValue_digitByte by assumption.
  replace (10 * (10 * (10 * (10 * 0 + a) + b) + c) + d)
    with (1000 * a + 100 * b + 10 * c + d) by lia.
  replace (10 * (10 * 0 + e) + f) with (10 * e + f) by lia.
  reflexivity.
Qed.

Lemma encode_decode (y w : Z) :
  0 <= y <= 9999 -> 1 <= w <= weeksInYear y ->
  exists text,
    encodeISOWeekDate y w = (text, None)
    /\ len text = 8
    /\ decodeISOWeekDate text = (y, w, None).
Proof.
  intros Hy Hw. pose proof (weeksInYear_range y) as HW.
  pose proof (proj2 (checkYearAndWeek_ok y w) (conj Hy Hw)) as Hok.
  unfold encodeISOWeekDate. rewrite Hok.
  eexists. split; [reflexivity|]. split; [reflexivity|].
  rewrite decode_token by (Z.div_mod_to_equations; lia).
  replace (1000 * (y / 1000) + 100 * (y / 100 mod 10) + 10 * (y / 10 mod 10) + y mod 10)
    with y by (Z.div_mod_to_equations; lia).
  replace (10 * (w / 10) + w mod 10) with w by (Z.div_mod_to_equations; lia).
  now rewrite Hok.
Qed.

(** What decoding accepts has passed validation. *)
Lemma decode_valid (data : list byte) (y w : Z) :
  decodeISOWeekDate data = (y, w, None) -> valid (mkWeek y w).
Proof.
  unfold decodeISOWeekDate.
  destruct data as [|b1 [|b2 [|b3 [|b4 [|b5 [|b6 [|b7 [|b8 [|b9 rest]]]]]]]]];
    try discriminate.
  destruct (negb (Byte.eqb b5 x2d) || negb (Byte.eqb b6 x57)); [discriminate|].
  destruct (digitsValue 0 [b1; b2; b3; b4]) as [yr|]; [|discriminate].
  destruct (digitsValue 0 [b7; b8]) as [wk|]; [|discriminate].
  destruct (checkYearAndWeek yr wk) eqn:E; [discriminate|].
  intros H. injection H as <- <-.
  apply checkYearAndWeek_ok in E. exact E.
Qed.

(** A failed decoding reports an error and the zero pair. *)
Lemma decode_total (data : list byte) :
  (exists y w, decodeISOWeekDate data = (y, w, None))
  \/ (exists err, decodeISOWeekDate data = (0, 0, Some err)).
Proof.
  unfold decodeISOWeekDate.
  destruct data as [|b1 [|b2 [|b3 [|b4 [|b5 [|b6 [|b7 [|b8 [|b9 rest]]]]]]]]];
    try (right; eexists; reflexivity).
  destruct (negb (Byte.eqb b5 x2d) || negb (Byte.eqb b6 x57));
    [right; eexists; reflexivity|].
  destruct (digitsValue 0 [b1; b2; b3; b4]) as [yr|];
    [|right; eexists; reflexivity].
  destruct (digitsValue 0 [b7; b8]) as [wk|]; [|right; eexists; reflexivity].
  destruct (checkYearAndWeek yr wk) eqn:E.
  - right; eexists; reflexivity.
  - left. exists yr, wk. reflexivity.
Qed.

(** ** The properties of the specification *)

(** C1: for every valid pair (year, week), encoding gives the 8-byte token
    and decoding that token gives the pair back; [MarshalText] followed by
    [UnmarshalText] restores the week, whatever the receiver held. *)
Theorem MarshalText_UnmarshalText_round_trip (y w : Z) :
  0 <= y <= 9999 -> 1 <= w <= weeksInYear y ->
  exists text,
    MarshalText (mkWeek y w) = (text, None)
    /\ len text = 8
    /\ decodeISOWeekDate text = (y, w, None)
    /\ forall r, UnmarshalText r text = (mkWeek y w, None).
Proof.
  intros Hy Hw.
  destruct (encode_decode y w Hy Hw) as (text & Henc & Hlen & Hdec).
  exists text. unfold MarshalText, UnmarshalText. cbn [year week].
  rewrite Henc, Hdec. repeat split; assumption.
Qed.

Lemma MarshalText_UnmarshalText_round_trip_witness :
  (0 <= 2021 <= 9999 /\ 1 <= 52 <= weeksInYear 2021)
  /\ exists text,
       MarshalText (mkWeek 2021 52) = (text, None)
       /\ len text = 8
       /\ decodeISOWeekDate text = (2021, 52, None)
       /\ forall r, UnmarshalText r text = (mkWeek 2021 52, None).
Proof.
  assert (E : weeksInYear 2021 = 52) by (vm_compute; reflexivity).
  split; [rewrite E; lia|].
  apply (MarshalText_UnmarshalText_round_trip 2021 52); rewrite ?E; lia.
Defined.

(** C2: for every valid week [w] and every [int] [delta], [Add] returns
    the valid week whose position on the time line is [delta] after that of
    [w] when that position lies in the years 0 to 9999, and fails with the
    year-range error of validation otherwise; the loop of [add] always
    exits.  One week after 2015-W53 is 2016-W01, and one week before
    2016-W01 is 2015-W53. *)
Theorem Add_weeks_after :
  (forall w delta,
      valid w -> GoInt.inRange delta ->
      (firstIndex <= weekIndex w + delta <= lastIndex ->
       exists r, Add w delta = Ret (r, None)
                 /\ valid r /\ weekIndex r = weekIndex w + delta)
      /\ (~ firstIndex <= weekIndex w + delta <= lastIndex ->
          Add w delta = Ret (zeroWeek, Some (Validation InvalidYear))))
  /\ Add (mkWeek 2015 53) 1 = Ret (mkWeek 2016 1, None)
  /\ Add (mkWeek 2016 1) (-1) = Ret (mkWeek 2015 53, None).
Proof.
  split; [|split; vm_compute; reflexivity].
  intros w delta Hv Hd.
  destruct (add_target w delta Hv Hd) as (y' & w' & Hadd & Hw' & Hidx).
  unfold Add. rewrite Hadd, <- Hidx.
  pose proof (index_in_range y' w' Hw') as Hrange.
  split; intros H.
  - apply (proj2 Hrange) in H. exists (mkWeek y' w').
    rewrite New_ok by assumption. repeat split; cbn [year week]; lia.
  - rewrite New_year; [reflexivity|].
    intros Hy. exact (H (proj1 Hrange Hy)).
Qed.

Lemma Add_weeks_after_witness :
  (valid (mkWeek 2015 53) /\ GoInt.inRange 1
   /\ firstIndex <= weekIndex (mkWeek 2015 53) + 1 <= lastIndex)
  /\ exists r, Add (mkWeek 2015 53) 1 = Ret (r, None)
               /\ valid r /\ weekIndex r = weekIndex (mkWeek 2015 53) + 1.
Proof.
  assert (Hv : valid (mkWeek 2015 53)).
  { unfold valid. cbn [year week].
    assert (E : weeksInYear 2015 = 53) by (vm_compute; reflexivity). rewrite E. lia. }
  assert (Hd : GoInt.inRange 1).
  { unfold GoInt.inRange, GoInt.minInt, GoInt.maxInt. lia. }
  assert (Hi : firstIndex <= weekIndex (mkWeek 2015 53) + 1 <= lastIndex).
  { assert (E1 : weekIndex (mkWeek 2015 53) = 105190) by (vm_compute; reflexivity).
    assert (E2 : lastIndex = 521775) by (vm_compute; reflexivity).
    rewrite E1, E2. unfold firstIndex. lia. }
  split; [exact (conj Hv (conj Hd Hi))|].
  exact (proj1 (proj1 Add_weeks_after (mkWeek 2015 53) 1 Hv Hd) Hi).
Defined.

(** C3: for valid weeks [a] and [b], [a.Sub(b)] returns the distance from
    [a] to [b] on the time line: positive exactly when [b] is after [a],
    negative exactly when [b] is before [a], zero exactly when they are
    equal.  From 2015-W01 to itself it is 0, and to 2016-W01 it is the
    number of weeks of 2015. *)
Theorem Sub_signed_weeks :
  (forall a b,
      valid a -> valid b ->
      exists n, Sub a b = Ret n
                /\ n = weekIndex b - weekIndex a
                /\ (0 < n <-> before a b)
                /\ (n < 0 <-> before b a)
                /\ (n = 0 <-> a = b))
  /\ Sub (mkWeek 2015 1) (mkWeek 2015 1) = Ret 0
  /\ Sub (mkWeek 2015 1) (mkWeek 2016 1) = Ret (weeksInYear 2015).
Proof.
  split; [|split; vm_compute; reflexivity].
  intros a b Ha Hb. exists (weekIndex b - weekIndex a).
  unfold Sub. rewrite (subWalk_valid a b Ha Hb). cbn [bind fst].
  split; [reflexivity|]. split; [reflexivity|].
  destruct Ha as [_ Ha], Hb as [_ Hb].
  pose proof (weekIndex_before a b Ha Hb) as Hab.
  pose proof (weekIndex_before b a Hb Ha) as Hba.
  destruct (before_trichotomy a b) as [H | [H | H]].
  - specialize (Hab H).
    repeat split; intros; try lia; try assumption.
    + exfalso. destruct H as [H | [H1 H2]], H0 as [H0 | [H3 H4]]; lia.
    + subst b. lia.
  - subst b. repeat split; intros; try lia; try reflexivity;
      destruct H as [H | [H1 H2]]; lia.
  - specialize (Hba H).
    repeat split; intros; try lia; try assumption.
    + exfalso. destruct H as [H | [H1 H2]], H0 as [H0 | [H3 H4]]; lia.
    + subst b. lia.
Qed.

Lemma Sub_signed_weeks_witness :
  (valid (mkWeek 2016 1) /\ valid (mkWeek 2010 7))
  /\ exists n, Sub (mkWeek 2016 1) (mkWeek 2010 7) = Ret n
               /\ n = weekIndex (mkWeek 2010 7) - weekIndex (mkWeek 2016 1)
               /\ (0 < n <-> before (mkWeek 2016 1) (mkWeek 2010 7))
               /\ (n < 0 <-> before (mkWeek 2010 7) (mkWeek 2016 1))
               /\ (n = 0 <-> mkWeek 2016 1 = mkWeek 2010 7).
Proof.
  assert (Ha : valid (mkWeek 2016 1)).
  { unfold valid. cbn [year week].
    assert (E : weeksInYear 2016 = 52) by (vm_compute; reflexivity). rewrite E. lia. }
  assert (Hb : valid (mkWeek 2010 7)).
  { unfold valid. cbn [year week].
    assert (E : weeksInYear 2010 = 52) by (vm_compute; reflexivity). rewrite E. lia. }
  split; [exact (conj Ha Hb)|].
  exact (proj1 Sub_signed_weeks (mkWeek 2016 1) (mkWeek 2010 7) Ha Hb).
Defined.

(** C9: for two validated weeks the walk of [Sub] returns after at most
    [|a.year - b.year| + 1] passes through its loop (indeed exactly that
    many), and so never reaches the panic of the loop guard. *)
Theorem Sub_walk_terminates (a b : Week) :
  valid a -> valid b ->
  exists diff iters,
    subWalk a b = Ret (diff, iters)
    /\ Sub a b = Ret diff
    /\ 1 <= iters <= Z.abs (year a - year b) + 1.
Proof.
  intros Ha Hb.
  exists (weekIndex b - weekIndex a), (Z.abs (year a - year b) + 1).
  unfold Sub. rewrite (subWalk_valid a b Ha Hb). cbn [bind fst].
  repeat split; lia.
Qed.

Lemma Sub_walk_terminates_witness :
  (valid (mkWeek 2016 1) /\ valid (mkWeek 2010 7))
  /\ exists diff iters,
       subWalk (mkWeek 2016 1) (mkWeek 2010 7) = Ret (diff, iters)
       /\ Sub (mkWeek 2016 1) (mkWeek 2010 7) = Ret diff
       /\ 1 <= iters <= Z.abs (year (mkWeek 2016 1) - year (mkWeek 2010 7)) + 1.
Proof.
  assert (Ha : valid (mkWeek 2016 1)).
  { unfold valid. cbn [year week].
    assert (E : weeksInYear 2016 = 52) by (vm_compute; reflexivity). rewrite E. lia. }
  assert (Hb : valid (mkWeek 2010 7)).
  { unfold valid. cbn [year week].
    assert (E : weeksInYear 2010 = 52) by (vm_compute; reflexivity). rewrite E. lia. }
  split; [exact (conj Ha Hb)|].
  exact (Sub_walk_terminates (mkWeek 2016 1) (mkWeek 2010 7) Ha Hb).
Defined.

(** The long-year rule and the arithmetic test of section 4.2 disagree at
    the year 2004, whose 1 January is a Thursday: whatever a function
    returns there, it cannot follow both. *)
Lemma long_year_rule_formula_disagree (f : Z -> Z) :
  ~ ((f 2004 = 53 <->
      time.weekday (time.Date 2004 1 1) = time.Thursday
      \/ time.weekday (time.Date 2004 12 31) = time.Thursday)
     /\ (f 2004 = 53 <-> longYearFormula 2004 = true)).
Proof.
  intros [[_ Hrule] [Hformula _]].
  assert (Hthu : time.weekday (time.Date 2004 1 1) = time.Thursday)
    by (vm_compute; reflexivity).
  specialize (Hformula (Hrule (or_introl Hthu))).
  vm_compute in Hformula. discriminate Hformula.
Qed.

(** C4, as stated: at the year 2004 [weeksInYear] returns 53, as the
    long-year rule asks, and the arithmetic test
    [p(year) == 4 || p(year) == 3 && isLeapYear(year)] says 52. *)
Lemma weeksInYear_formula_2004 :
  ~ ((weeksInYear 2004 = 53 <->
      time.weekday (time.Date 2004 1 1) = time.Thursday
      \/ time.weekday (time.Date 2004 12 31) = time.Thursday)
     /\ (weeksInYear 2004 = 53 <-> longYearFormula 2004 = true)).
Proof. exact (long_year_rule_formula_disagree weeksInYear). Qed.

(** The test as the specification writes it also counts 53 weeks where
    the calendar has 52: the leap year 2008 ends on a Wednesday, and the
    days of what would be its week 53 belong to week 1 of 2009. *)
Lemma longYearFormula_2008 :
  longYearFormula 2008 = true
  /\ weeksInYear 2008 = 52
  /\ FromTime (Time (mkWeek 2008 53) time.Monday) = mkWeek 2009 1.
Proof. repeat split; vm_compute; reflexivity. Qed.

(** C4, amended: [weeksInYear] returns 53 exactly when 1 January or 31
    December of the year falls on a Thursday, and 52 otherwise; for the
    years from 0 on that is exactly when
    [p(year) == 4 || p(year) == 5 && isLeapYear(year)].  The years 2015 and
    2020 have 53 weeks, 2016 and 2019 have 52. *)
Theorem weeksInYear_long_year :
  (forall year,
      (weeksInYear year = 53 \/ weeksInYear year = 52)
      /\ (weeksInYear year = 53 <->
          time.weekday (time.Date year 1 1) = time.Thursday
          \/ time.weekday (time.Date year 12 31) = time.Thursday)
      /\ (0 <= year ->
          (weeksInYear year = 53 <->
           p year = 4 \/ (p year = 5 /\ isLeapYear year = true))))
  /\ weeksInYear 2015 = 53 /\ weeksInYear 2016 = 52
  /\ weeksInYear 2019 = 52 /\ weeksInYear 2020 = 53.
Proof.
  split; [|repeat split; vm_compute; reflexivity].
  intros yr. split; [|split].
  - unfold weeksInYear. destruct (_ || _); [left | right]; reflexivity.
  - unfold weeksInYear.
    destruct (Z.eqb_spec (time.weekday (time.Date yr 1 1)) time.Thursday);
      destruct (Z.eqb_spec (time.weekday (time.Date yr 12 31)) time.Thursday);
      cbn [orb]; split; intros H; try reflexivity; try discriminate H;
      try (left; assumption); try (right; assumption);
      destruct H; contradiction.
  - apply weeksInYear_formula.
Qed.

Lemma weeksInYear_long_year_witness :
  0 <= 2004
  /\ (weeksInYear 2004 = 53 <->
      p 2004 = 4 \/ (p 2004 = 5 /\ isLeapYear 2004 = true)).
Proof.
  assert (H : 0 <= 2004) by lia.
  split; [exact H|].
  exact (proj2 (proj2 (proj1 weeksInYear_long_year 2004)) H).
Defined.

(** C5: [New] succeeds exactly when the year lies in 0..9999 and the week
    in 1..weeksInYear(year), and then returns that week; otherwise it
    returns the zero week with the error.  [New(-1, 1)] and [New(10000, 1)]
    fail with the year error, [New(2021, 53)] with the week error, and
    [New(2021, 52)] succeeds. *)
Theorem New_succeeds_iff :
  (forall yr wk,
      (snd (New yr wk) = None <-> 0 <= yr <= 9999 /\ 1 <= wk <= weeksInYear yr)
      /\ (snd (New yr wk) = None -> fst (New yr wk) = mkWeek yr wk)
      /\ (snd (New yr wk) <> None -> fst (New yr wk) = zeroWeek))
  /\ New (-1) 1 = (zeroWeek, Some (Validation InvalidYear))
  /\ New 10000 1 = (zeroWeek, Some (Validation InvalidYear))
  /\ New 2021 53 = (zeroWeek, Some (Validation InvalidWeek))
  /\ New 2021 52 = (mkWeek 2021 52, None).
Proof.
  split; [|repeat split; vm_compute; reflexivity].
  intros yr wk. unfold New.
  pose proof (checkYearAndWeek_ok yr wk) as Hok.
  destruct (checkYearAndWeek yr wk) as [err|]; cbn [fst snd].
  - repeat split; try discriminate; try reflexivity.
    intros H. apply Hok in H. discriminate H.
  - repeat split; try reflexivity; try (apply Hok; reflexivity).
    intros H. now elim H.
Qed.

Lemma New_succeeds_iff_witness :
  snd (New 2021 52) = None /\ fst (New 2021 52) = mkWeek 2021 52.
Proof.
  assert (H : snd (New 2021 52) = None) by (vm_compute; reflexivity).
  split; [exact H|].
  exact (proj1 (proj2 (proj1 New_succeeds_iff 2021 52)) H).
Defined.

(** C6: for every valid week [d] and each of the seven weekdays (ISO
    numbers 1 for Monday to 7 for Sunday), [FromTime] of the day that
    [Time] returns is [d] again: same year, same week. *)
Theorem FromTime_Time_round_trip (d : Week) (weekday : time.Weekday) :
  valid d -> time.Sunday <= weekday <= time.Saturday ->
  1 <= convertToISOWeekday weekday <= 7
  /\ FromTime (Time d weekday) = d.
Proof.
  intros [Hy Hw] Hwd. unfold time.Sunday, time.Saturday in Hwd. split.
  - apply convertToISOWeekday_range. exact Hwd.
  - apply FromTime_Time_week; [lia | exact Hw | exact Hwd].
Qed.

Lemma FromTime_Time_round_trip_witness :
  (valid (mkWeek 2020 53) /\ time.Sunday <= time.Sunday <= time.Saturday)
  /\ 1 <= convertToISOWeekday time.Sunday <= 7
  /\ FromTime (Time (mkWeek 2020 53) time.Sunday) = mkWeek 2020 53.
Proof.
  assert (Hv : valid (mkWeek 2020 53)).
  { unfold valid. cbn [year week].
    assert (E : weeksInYear 2020 = 53) by (vm_compute; reflexivity). rewrite E. lia. }
  assert (Hd : time.Sunday <= time.Sunday <= time.Saturday).
  { unfold time.Sunday, time.Saturday. lia. }
  split; [exact (conj Hv Hd)|].
  exact (FromTime_Time_round_trip (mkWeek 2020 53) time.Sunday Hv Hd).
Defined.

Lemma UnmarshalJSON_returns (r : Week) (data : list byte) (w : Week) (e : option error) :
  UnmarshalJSON r data = Ret (w, e) ->
  (e = Some (errors.New "unable to unmarshal json: string literal expected") /\ w = r)
  \/ (exists inner cause,
         decodeISOWeekDate inner = (0, 0, Some cause)
         /\ e = Some (Wrap cause "unable to unmarshal json") /\ w = r)
  \/ (exists inner, decodeISOWeekDate inner = (year w, week w, None) /\ e = None).
Proof.
  unfold UnmarshalJSON.
  destruct (index data 0) as [first | |]; cbn [bind]; try discriminate.
  destruct (negb (Byte.eqb first x22)); cbn [bind].
  - intros H. injection H as <- <-. left. split; reflexivity.
  - destruct (index data (len data - 1)) as [last | |]; cbn [bind]; try discriminate.
    destruct (negb (Byte.eqb last x22)).
    + intros H. injection H as <- <-. left. split; reflexivity.
    + destruct (slice data 1 (len data - 1)) as [inner | |]; cbn [bind];
        try discriminate.
      destruct (decode_total inner) as [(y & wk & E) | (cause & E)]; rewrite E.
      * intros H. injection H as <- <-. right. right. exists inner.
        split; [exact E | reflexivity].
      * intros H. injection H as <- <-. right. left. exists inner, cause.
        repeat split. exact E.
Qed.

Lemma UnmarshalText_returns (r : Week) (data : list byte) :
  (exists cause,
      decodeISOWeekDate data = (0, 0, Some cause)
      /\ UnmarshalText r data = (r, Some (Wrap cause "unable to unmarshal text")))
  \/ (exists y wk,
         decodeISOWeekDate data = (y, wk, None)
         /\ UnmarshalText r data = (mkWeek y wk, None)).
Proof.
  unfold UnmarshalText.
  destruct (decode_total data) as [(y & wk & E) | (cause & E)]; rewrite E.
  - right. exists y, wk. split; reflexivity.
  - left. exists cause. split; reflexivity.
Qed.

Lemma Scan_returns (r : Week) (src : any) :
  Scan r src = (r, Some (errors.New "unable to scan value: incompatible type"))
  \/ (exists data cause,
         decodeISOWeekDate data = (0, 0, Some cause)
         /\ Scan r src = (r, Some (Wrap cause "unable to scan value")))
  \/ (exists data y wk,
         decodeISOWeekDate data = (y, wk, None)
         /\ Scan r src = (mkWeek y wk, None)).
Proof.
  destruct src as [| v | v | v | v | v]; cbn [Scan]; try (left; reflexivity); right.
  - destruct (decode_total v) as [(y & wk & E) | (cause & E)]; rewrite E.
    + right. exists v, y, wk. split; [exact E | reflexivity].
    + left. exists v, cause. split; [exact E | reflexivity].
  - destruct (decode_total (list_byte_of_string v)) as [(y & wk & E) | (cause & E)];
      rewrite E.
    + right. exists (list_byte_of_string v), y, wk. split; [exact E | reflexivity].
    + left. exists (list_byte_of_string v), cause. split; [exact E | reflexivity].
Qed.

(** The tokens of section 8 of the specification. *)
Lemma decode_examples :
  decodeISOWeekDate (list_byte_of_string "2021-W52") = (2021, 52, None)
  /\ decodeISOWeekDate (list_byte_of_string "2021W52")
     = (0, 0, Some (Validation FormatError))
  /\ decodeISOWeekDate (list_byte_of_string "2021-W99")
     = (0, 0, Some (Validation InvalidWeek)).
Proof. repeat split; vm_compute; reflexivity. Qed.

(** On text and on scanned values a malformed input is reported as a
    wrapped error whose cause is the error of the decoder. *)
Lemma UnmarshalText_error_wrapped (r : Week) (data : list byte) (w : Week) (e : error) :
  UnmarshalText r data = (w, Some e) ->
  exists cause,
    decodeISOWeekDate data = (0, 0, Some cause)
    /\ e = Wrap cause "unable to unmarshal text"
    /\ Cause e = Cause cause.
Proof.
  intros H.
  destruct (UnmarshalText_returns r data) as [(cause & E & E') | (y & wk & E & E')];
    rewrite E' in H; [|discriminate].
  injection H as _ <-. exists cause. repeat split. exact E.
Qed.

(** C7, as stated: [FromTime] builds a week without validation; the week
    of 5 January 10000 lies outside the supported years. *)
Lemma FromTime_year_10000 :
  FromTime (time.Date 10000 1 5) = mkWeek 10000 1
  /\ ~ valid (FromTime (time.Date 10000 1 5)).
Proof.
  assert (E : FromTime (time.Date 10000 1 5) = mkWeek 10000 1)
    by (vm_compute; reflexivity).
  split; [exact E|]. rewrite E. unfold valid. cbn [year week]. lia.
Qed.

(** C7, amended: every week that [New], [UnmarshalJSON], [UnmarshalText]
    or [Scan] hands out on success has passed validation, and [New] hands
    out the zero week with an error; [FromTime] does not validate: its week
    lies in 1..weeksInYear(year), its year is the ISO year of the time, in
    or out of 0..9999. *)
Theorem materialized_weeks_validated :
  (forall yr wk w, New yr wk = (w, None) -> valid w)
  /\ (forall yr wk w err, New yr wk = (w, Some err) -> w = zeroWeek)
  /\ (forall r data w, UnmarshalJSON r data = Ret (w, None) -> valid w)
  /\ (forall r data w, UnmarshalText r data = (w, None) -> valid w)
  /\ (forall r src w, Scan r src = (w, None) -> valid w)
  /\ (forall t, 1 <= week (FromTime t) <= weeksInYear (year (FromTime t))).
Proof.
  repeat apply conj.
  - intros yr wk w. unfold New.
    destruct (checkYearAndWeek yr wk) eqn:E; [discriminate|].
    intros H. injection H as <-. apply checkYearAndWeek_ok in E. exact E.
  - intros yr wk w err. unfold New.
    destruct (checkYearAndWeek yr wk); [|discriminate].
    intros H. injection H as <- _. reflexivity.
  - intros r data w H.
    destruct (UnmarshalJSON_returns r data w None H)
      as [[E _] | [(inner & cause & _ & E & _) | (inner & E & _)]];
      try discriminate.
    apply decode_valid in E. destruct w. exact E.
  - intros r data w H.
    destruct (UnmarshalText_returns r data) as [(cause & E & E') | (y & wk & E & E')];
      rewrite E' in H; [discriminate|].
    injection H as <-. exact (decode_valid data y wk E).
  - intros r src w H.
    destruct (Scan_returns r src)
      as [E' | [(data & cause & E & E') | (data & y & wk & E & E')]];
      rewrite E' in H; try discriminate.
    injection H as <-. exact (decode_valid data y wk E).
  - exact FromTime_week_range.
Qed.

Lemma materialized_weeks_validated_witness :
  New 2021 52 = (mkWeek 2021 52, None) /\ valid (mkWeek 2021 52).
Proof.
  assert (H : New 2021 52 = (mkWeek 2021 52, None)) by (vm_compute; reflexivity).
  split; [exact H|].
  exact (proj1 materialized_weeks_validated 2021 52 (mkWeek 2021 52) H).
Defined.

(** [UnmarshalJSON] returns on every input but two. *)
Lemma UnmarshalJSON_panics_iff (w : Week) (data : list byte) :
  (exists msg, UnmarshalJSON w data = Panic msg) <-> data = [] \/ data = [x22].
Proof.
  split.
  - intros [msg H]. destruct data as [|b [|b' rest]].
    + left. reflexivity.
    + right. revert H. unfold UnmarshalJSON.
      change (index [b] 0) with (@Ret byte b). cbn [bind].
      change (len [b] - 1) with 0.
      change (index [b] 0) with (@Ret byte b).
      destruct (Byte.eqb b x22) eqn:E; cbn [negb bind]; [|discriminate].
      intros _. apply Byte.byte_dec_bl in E. now subst b.
    + exfalso. revert H. unfold UnmarshalJSON.
      change (index (b :: b' :: rest) 0) with (@Ret byte b). cbn [bind].
      assert (Hlen : len (b :: b' :: rest) = 2 + len rest).
      { unfold len. cbn [List.length]. lia. }
      assert (Hr : 0 <= len rest) by (unfold len; lia).
      unfold index, slice. rewrite Hlen.
      destruct (Z.ltb_spec (2 + len rest - 1) 0); [lia|].
      destruct (Z.leb_spec (2 + len rest) (2 + len rest - 1)); [lia|].
      destruct (Z.ltb_spec (2 + len rest - 1) 1); [lia|].
      destruct (Z.ltb_spec (2 + len rest) (2 + len rest - 1)); [lia|].
      cbn [orb bind Z.ltb Z.compare].
      destruct (negb (Byte.eqb b x22)); cbn [bind]; [discriminate|].
      destruct (negb (Byte.eqb _ x22)); [discriminate|].
      destruct (decodeISOWeekDate _) as [[y wk] [err|]]; discriminate.
  - intros [-> | ->]; eexists; reflexivity.
Qed.

(** C8: [UnmarshalJSON] reads [data[0]] before it looks at the length: on
    the empty input it panics with an index out of range, and on the one
    byte of a double quote it panics when it slices [data[1:0]]. *)
Theorem UnmarshalJSON_short_input_panics (w : Week) :
  UnmarshalJSON w [] = Panic "index out of range"
  /\ UnmarshalJSON w [x22] = Panic "slice bounds out of range".
Proof. split; reflexivity. Qed.

(** C10: when [UnmarshalJSON], [UnmarshalText] or [Scan] returns an error,
    the receiver holds the year and the week that it held before the
    call. *)
Theorem Unmarshal_error_keeps_receiver (w : Week) :
  (forall data w' err, UnmarshalJSON w data = Ret (w', Some err) -> w' = w)
  /\ (forall data w' err, UnmarshalText w data = (w', Some err) -> w' = w)
  /\ (forall src w' err, Scan w src = (w', Some err) -> w' = w).
Proof.
  repeat apply conj.
  - intros data w' err H.
    destruct (UnmarshalJSON_returns w data w' (Some err) H)
      as [[_ E] | [(inner & cause & _ & _ & E) | (inner & _ & E)]];
      try discriminate; exact E.
  - intros data w' err H.
    destruct (UnmarshalText_returns w data) as [(cause & E & E') | (y & wk & E & E')];
      rewrite E' in H; [|discriminate].
    injection H as <- _. reflexivity.
  - intros src w' err H.
    destruct (Scan_returns w src)
      as [E' | [(data & cause & E & E') | (data & y & wk & E & E')]];
      rewrite E' in H; try discriminate; injection H as <- _; reflexivity.
Qed.

Lemma Unmarshal_error_keeps_receiver_witness :
  UnmarshalText (mkWeek 2021 5) (list_byte_of_string "2021W52")
  = (mkWeek 2021 5, Some (Wrap (Validation FormatError) "unable to unmarshal text"))
  /\ mkWeek 2021 5 = mkWeek 2021 5.
Proof.
  assert (H : UnmarshalText (mkWeek 2021 5) (list_byte_of_string "2021W52")
              = (mkWeek 2021 5,
                 Some (Wrap (Validation FormatError) "unable to unmarshal text")))
    by (vm_compute; reflexivity).
  split; [exact H|].
  exact (proj1 (proj2 (Unmarshal_error_keeps_receiver (mkWeek 2021 5))) _ _ _ H).
Defined.

(** ** Further properties of the arithmetic *)

(** A position on the time line names one week. *)
Lemma index_unique (y1 w1 y2 w2 : Z) :
  1 <= w1 <= weeksInYear y1 -> 1 <= w2 <= weeksInYear y2 ->
  weeksBefore y1 + w1 = weeksBefore y2 + w2 -> y1 = y2 /\ w1 = w2.
Proof.
  intros H1 H2 E.
  assert (H : mkWeek y1 w1 = mkWeek y2 w2)
    by (apply weekIndex_inj; [exact H1 | exact H2 | exact E]).
  injection H as -> ->. split; reflexivity.
Qed.

(** What [add] returns depends on the position it aims at only. *)
Lemma add_at_index (w : Week) (d y' w' : Z) :
  valid w -> GoInt.inRange d ->
  1 <= w' <= weeksInYear y' ->
  weeksBefore y' + w' = weekIndex w + d ->
  add w d = Ret (New y' w').
Proof.
  intros Hv Hd Hw' Hidx.
  destruct (add_target w d Hv Hd) as (y & wk & Hadd & Hwk & Hi).
  destruct (index_unique y wk y' w' Hwk Hw' ltac:(lia)) as [-> ->].
  exact Hadd.
Qed.

Lemma add_success (w : Week) (d : Z) (r : Week) :
  valid w -> GoInt.inRange d ->
  add w d = Ret (r, None) ->
  valid r /\ weekIndex r = weekIndex w + d.
Proof.
  intros Hv Hd H.
  destruct (add_target w d Hv Hd) as (y & wk & Hadd & Hwk & Hi).
  rewrite Hadd in H. injection H as H. unfold New in H.
  destruct (checkYearAndWeek y wk) eqn:E; [discriminate|].
  injection H as <-. apply checkYearAndWeek_ok in E.
  split; [exact E | exact Hi].
Qed.

(** X1: [Next] of a valid week is the following week of the same year, or
    week 1 of the next year after the last week of a year; it fails, with
    the year error of validation, only on the last week of the year
    9999. *)
Theorem Next_cases (w : Week) :
  valid w ->
  Next w
  = Ret (if week w <? weeksInYear (year w) then (mkWeek (year w) (week w + 1), None)
         else if year w <? 9999 then (mkWeek (year w + 1) 1, None)
         else (zeroWeek, Some (Validation InvalidYear))).
Proof.
  intros Hv. pose proof Hv as [Hy Hw].
  assert (Hd : GoInt.inRange 1)
    by (unfold GoInt.inRange, GoInt.minInt, GoInt.maxInt; lia).
  unfold Next, Add.
  destruct (Z.ltb_spec (week w) (weeksInYear (year w))) as [Hlt | Hge].
  - rewrite (add_at_index w 1 (year w) (week w + 1) Hv Hd) by (unfold weekIndex; lia).
    now rewrite New_ok by lia.
  - pose proof (weeksInYear_range (year w + 1)).
    rewrite (add_at_index w 1 (year w + 1) 1 Hv Hd)
      by (unfold weekIndex; rewrite ?weeksBefore_succ; lia).
    destruct (Z.ltb_spec (year w) 9999).
    + now rewrite New_ok by lia.
    + now rewrite New_year by lia.
Qed.

Lemma Next_cases_witness :
  valid (mkWeek 2015 53)
  /\ Next (mkWeek 2015 53)
     = Ret (if week (mkWeek 2015 53) <? weeksInYear (year (mkWeek 2015 53))
            then (mkWeek (year (mkWeek 2015 53)) (week (mkWeek 2015 53) + 1), None)
            else if year (mkWeek 2015 53) <? 9999
            then (mkWeek (year (mkWeek 2015 53) + 1) 1, None)
            else (zeroWeek, Some (Validation InvalidYear))).
Proof.
  assert (Hv : valid (mkWeek 2015 53)).
  { unfold valid. cbn [year week].
    assert (E : weeksInYear 2015 = 53) by (vm_compute; reflexivity). rewrite E. lia. }
  split; [exact Hv|]. exact (Next_cases (mkWeek 2015 53) Hv).
Defined.

(** X2: [Previous] of a valid week is the week before it in the same
    year, or the last week of the year before when the week is week 1; it
    fails, with the year error of validation, only on week 1 of the
    year 0. *)
Theorem Previous_cases (w : Week) :
  valid w ->
  Previous w
  = Ret (if 1 <? week w then (mkWeek (year w) (week w - 1), None)
         else if 0 <? year w
         then (mkWeek (year w - 1) (weeksInYear (year w - 1)), None)
         else (zeroWeek, Some (Validation InvalidYear))).
Proof.
  intros Hv. pose proof Hv as [Hy Hw].
  assert (Hd : GoInt.inRange (-1))
    by (unfold GoInt.inRange, GoInt.minInt, GoInt.maxInt; lia).
  unfold Previous, Add.
  destruct (Z.ltb_spec 1 (week w)) as [Hlt | Hge].
  - rewrite (add_at_index w (-1) (year w) (week w - 1) Hv Hd) by (unfold weekIndex; lia).
    now rewrite New_ok by lia.
  - pose proof (weeksInYear_range (year w - 1)).
    pose proof (weeksBefore_succ (year w - 1)) as Hs.
    replace (year w - 1 + 1) with (year w) in Hs by lia.
    rewrite (add_at_index w (-1) (year w - 1) (weeksInYear (year w - 1)) Hv Hd)
      by (unfold weekIndex; lia).
    destruct (Z.ltb_spec 0 (year w)).
    + now rewrite New_ok by lia.
    + now rewrite New_year by lia.
Qed.

Lemma Previous_cases_witness :
  valid (mkWeek 2016 1)
  /\ Previous (mkWeek 2016 1)
     = Ret (if 1 <? week (mkWeek 2016 1)
            then (mkWeek (year (mkWeek 2016 1)) (week (mkWeek 2016 1) - 1), None)
            else if 0 <? year (mkWeek 2016 1)
            then (mkWeek (year (mkWeek 2016 1) - 1)
                    (weeksInYear (year (mkWeek 2016 1) - 1)), None)
            else (zeroWeek, Some (Validation InvalidYear))).
Proof.
  assert (Hv : valid (mkWeek 2016 1)).
  { unfold valid. cbn [year week].
    assert (E : weeksInYear 2016 = 52) by (vm_compute; reflexivity). rewrite E. lia. }
  split; [exact Hv|]. exact (Previous_cases (mkWeek 2016 1) Hv).
Defined.

(** X3: adding nothing to a valid week returns it; adding [b] weeks to
    the result of adding [a] weeks is adding [a + b] weeks at once, the
    error included. *)
Theorem Add_compose (w r : Week) (a b : Z) :
  valid w -> GoInt.inRange a -> GoInt.inRange b -> GoInt.inRange (a + b) ->
  Add w a = Ret (r, None) ->
  Add w 0 = Ret (w, None) /\ Add r b = Add w (a + b).
Proof.
  intros Hv Ha Hb Hab H. unfold Add in *. pose proof Hv as [Hy Hw]. split.
  - assert (H0 : GoInt.inRange 0)
      by (unfold GoInt.inRange, GoInt.minInt, GoInt.maxInt; lia).
    rewrite (add_at_index w 0 (year w) (week w) Hv H0) by (unfold weekIndex; lia).
    rewrite New_ok by lia. destruct w; reflexivity.
  - destruct (add_success w a r Hv Ha H) as [Hr Hi].
    destruct (add_target w (a + b) Hv Hab) as (y & wk & Hadd & Hwk & Hidx).
    rewrite Hadd. apply add_at_index; [exact Hr | exact Hb | exact Hwk | lia].
Qed.

Lemma Add_compose_witness :
  (valid (mkWeek 2015 50) /\ GoInt.inRange 10 /\ GoInt.inRange (-4)
   /\ GoInt.inRange (10 + -4)
   /\ Add (mkWeek 2015 50) 10 = Ret (mkWeek 2016 7, None))
  /\ Add (mkWeek 2015 50) 0 = Ret (mkWeek 2015 50, None)
  /\ Add (mkWeek 2016 7) (-4) = Add (mkWeek 2015 50) (10 + -4).
Proof.
  assert (Hv : valid (mkWeek 2015 50)).
  { unfold valid. cbn [year week].
    assert (E : weeksInYear 2015 = 53) by (vm_compute; reflexivity). rewrite E. lia. }
  assert (Ha : GoInt.inRange 10)
    by (unfold GoInt.inRange, GoInt.minInt, GoInt.maxInt; lia).
  assert (Hb : GoInt.inRange (-4))
    by (unfold GoInt.inRange, GoInt.minInt, GoInt.maxInt; lia).
  assert (Hab : GoInt.inRange (10 + -4))
    by (unfold GoInt.inRange, GoInt.minInt, GoInt.maxInt; lia).
  assert (H : Add (mkWeek 2015 50) 10 = Ret (mkWeek 2016 7, None))
    by (vm_compute; reflexivity).
  split; [exact (conj Hv (conj Ha (conj Hb (conj Hab H))))|].
  exact (Add_compose (mkWeek 2015 50) (mkWeek 2016 7) 10 (-4) Hv Ha Hb Hab H).
Defined.

Lemma valid_bounded (w : Week) : valid w -> bounded w.
Proof.
  intros [Hy Hw]. pose proof (weeksInYear_range (year w)). unfold bounded. lia.
Qed.

Lemma subWalk_bounded (a b : Week) :
  bounded a -> bounded b ->
  subWalk a b = Ret (weekIndex b - weekIndex a, Z.abs (year a - year b) + 1).
Proof.
  intros [Hya Hwa] [Hyb Hwb].
  unfold subWalk.
  assert (Hyd : GoInt.sub (year b) (year a) = year b - year a) by (unwrap; reflexivity).
  rewrite Hyd, direction_sign by lia.
  destruct (Z.ltb_spec (year b - year a) 0) as [Hlt | Hge].
  - cbn [Z.eqb Pos.eqb Z.opp].
    rewrite (subLoop_walk (Z.to_nat (year a - year b))) by lia.
    cbn [bind fst snd].
    pose proof (weeksBefore_le (year b) (year a) ltac:(lia)).
    unwrap. unfold weekIndex. f_equal. f_equal; lia.
  - cbn [Z.eqb].
    rewrite (subLoop_walk (Z.to_nat (year b - year a))) by lia.
    cbn [bind fst snd].
    pose proof (weeksBefore_le (year a) (year b) ltac:(lia)).
    unwrap. unfold weekIndex. f_equal. f_equal; lia.
Qed.

Lemma Sub_bounded (a b : Week) :
  bounded a -> bounded b -> Sub a b = Ret (weekIndex b - weekIndex a).
Proof.
  intros Ha Hb. unfold Sub. now rewrite (subWalk_bounded a b Ha Hb).
Qed.

(** X4: on any two weeks, validated or not, whose years lie within
    [2 ^ 25] of year 0, [Sub] returns and never reaches its panic; the
    result changes sign when the weeks are exchanged, and the distances
    from [a] to [b] and from [b] to [c] add up to the distance from [a] to
    [c]. *)
Theorem Sub_antisymmetric_additive (a b c : Week) :
  bounded a -> bounded b -> bounded c ->
  exists n m,
    Sub a b = Ret n /\ Sub b c = Ret m
    /\ Sub b a = Ret (- n)
    /\ Sub a c = Ret (n + m)
    /\ Sub a a = Ret 0.
Proof.
  intros Ha Hb Hc.
  exists (weekIndex b - weekIndex a), (weekIndex c - weekIndex b).
  rewrite !Sub_bounded by assumption.
  repeat split; f_equal; lia.
Qed.

Lemma Sub_antisymmetric_additive_witness :
  (bounded zeroWeek /\ bounded (mkWeek 10000 1) /\ bounded (mkWeek (-1) 52))
  /\ exists n m,
       Sub zeroWeek (mkWeek 10000 1) = Ret n
       /\ Sub (mkWeek 10000 1) (mkWeek (-1) 52) = Ret m
       /\ Sub (mkWeek 10000 1) zeroWeek = Ret (- n)
       /\ Sub zeroWeek (mkWeek (-1) 52) = Ret (n + m)
       /\ Sub zeroWeek zeroWeek = Ret 0.
Proof.
  assert (Ha : bounded zeroWeek) by (unfold bounded; cbn [zeroWeek year week]; lia).
  assert (Hb : bounded (mkWeek 10000 1)) by (unfold bounded; cbn [year week]; lia).
  assert (Hc : bounded (mkWeek (-1) 52)) by (unfold bounded; cbn [year week]; lia).
  split; [exact (conj Ha (conj Hb Hc))|].
  exact (Sub_antisymmetric_additive zeroWeek (mkWeek 10000 1) (mkWeek (-1) 52) Ha Hb Hc).
Defined.

(** X5: [Add] and [Sub] undo each other on valid weeks: adding to [a]
    the distance from [a] to [b] gives [b], and the distance from [w] to
    the week that [Add] returns for [d] is [d]. *)
Theorem Add_Sub_inverse (a b : Week) (d : Z) (r : Week) :
  valid a -> valid b -> GoInt.inRange d ->
  Add a d = Ret (r, None) ->
  (exists n, Sub a b = Ret n /\ Add a n = Ret (b, None))
  /\ Sub a r = Ret d.
Proof.
  intros Ha Hb Hd H. split.
  - exists (weekIndex b - weekIndex a).
    rewrite (Sub_bounded a b (valid_bounded a Ha) (valid_bounded b Hb)).
    split; [reflexivity|].
    destruct Ha as [Hya Hwa], Hb as [Hyb Hwb].
    pose proof (weeksBefore_le 0 (year a) ltac:(lia)).
    pose proof (weeksBefore_le 0 (year b) ltac:(lia)).
    pose proof (weeksInYear_range (year a)). pose proof (weeksInYear_range (year b)).
    unfold Add.
    rewrite (add_at_index a (weekIndex b - weekIndex a) (year b) (week b)).
    + rewrite New_ok by lia. destruct b; reflexivity.
    + split; assumption.
    + unfold GoInt.inRange, GoInt.minInt, GoInt.maxInt, weekIndex. lia.
    + exact Hwb.
    + unfold weekIndex. lia.
  - unfold Add in H.
    destruct (add_success a d r Ha Hd H) as [Hr Hi].
    rewrite (Sub_bounded a r (valid_bounded a Ha) (valid_bounded r Hr)).
    f_equal. lia.
Qed.

Lemma Add_Sub_inverse_witness :
  (valid (mkWeek 2015 50) /\ valid (mkWeek 2010 7) /\ GoInt.inRange 10
   /\ Add (mkWeek 2015 50) 10 = Ret (mkWeek 2016 7, None))
  /\ (exists n, Sub (mkWeek 2015 50) (mkWeek 2010 7) = Ret n
                /\ Add (mkWeek 2015 50) n = Ret (mkWeek 2010 7, None))
  /\ Sub (mkWeek 2015 50) (mkWeek 2016 7) = Ret 10.
Proof.
  assert (Ha : valid (mkWeek 2015 50)).
  { unfold valid. cbn [year week].
    assert (E : weeksInYear 2015 = 53) by (vm_compute; reflexivity). rewrite E. lia. }
  assert (Hb : valid (mkWeek 2010 7)).
  { unfold valid. cbn [year week].
    assert (E : weeksInYear 2010 = 52) by (vm_compute; reflexivity). rewrite E. lia. }
  assert (Hd : GoInt.inRange 10)
    by (unfold GoInt.inRange, GoInt.minInt, GoInt.maxInt; lia).
  assert (H : Add (mkWeek 2015 50) 10 = Ret (mkWeek 2016 7, None))
    by (vm_compute; reflexivity).
  split; [exact (conj Ha (conj Hb (conj Hd H)))|].
  exact (Add_Sub_inverse (mkWeek 2015 50) (mkWeek 2010 7) 10 (mkWeek 2016 7) Ha Hb Hd H).
Defined.

(** ** Further properties of the conversion to and from days *)

Lemma firstMonday_monday (y : Z) : time.weekday (firstMonday y) = time.Monday.
Proof.
  unfold firstMonday, time.weekday, convertToISOWeekday, time.Sunday, time.Monday.
  destruct (Z.eqb_spec ((time.daysSinceEpoch y + 3 + 1) mod 7) 0) as [E | E];
    revert E; Z.div_mod_to_equations; lia.
Qed.

(** The first weeks of consecutive years are [weeksInYear] weeks apart. *)
Lemma firstMonday_step (y : Z) :
  firstMonday (y + 1) = firstMonday y + 7 * weeksInYear y.
Proof.
  pose proof (weeksInYear_range y) as HW.
  pose proof (weeksInYear_53 y) as H53.
  unfold firstMonday, time.weekday, convertToISOWeekday, time.Sunday.
  rewrite daysSinceEpoch_succ in *. unfold time.daysIn in *.
  destruct (Z.eq_dec (weeksInYear y) 53) as [E | E].
  - apply H53 in E. assert (EW : weeksInYear y = 53) by (apply H53; exact E).
    rewrite EW. clear H53 HW EW.
    destruct (time.isLeap y);
      destruct (Z.eqb_spec ((time.daysSinceEpoch y + 3 + 1) mod 7) 0);
      match goal with
      | |- context [(?t mod 7 =? 0)] => destruct (Z.eqb_spec (t mod 7) 0)
      end;
      revert E; Z.div_mod_to_equations; lia.
  - assert (EW : weeksInYear y = 52) by lia.
    assert (Hn : ~ ((time.daysSinceEpoch y + 1) mod 7 = 4
                    \/ (time.daysSinceEpoch y
                        + (if time.isLeap y then 366 else 365)) mod 7 = 4))
      by (intros H; apply E; apply H53; exact H).
    rewrite EW. clear H53 HW EW E.
    destruct (time.isLeap y);
      destruct (Z.eqb_spec ((time.daysSinceEpoch y + 3 + 1) mod 7) 0);
      match goal with
      | |- context [(?t mod 7 =? 0)] => destruct (Z.eqb_spec (t mod 7) 0)
      end;
      revert Hn; Z.div_mod_to_equations; lia.
Qed.

Lemma firstMonday_span (n : nat) :
  forall y,
    firstMonday (y + Z.of_nat n)
    = firstMonday y + 7 * (weeksBefore (y + Z.of_nat n) - weeksBefore y).
Proof.
  induction n as [|n IH]; intros y.
  - rewrite Z.add_0_r. lia.
  - replace (y + Z.of_nat (S n)) with (y + Z.of_nat n + 1) by lia.
    rewrite firstMonday_step, weeksBefore_succ, IH. lia.
Qed.

Lemma firstMonday_diff (y1 y2 : Z) :
  firstMonday y2 - firstMonday y1 = 7 * (weeksBefore y2 - weeksBefore y1).
Proof.
  destruct (Z.le_ge_cases y1 y2) as [H | H].
  - pose proof (firstMonday_span (Z.to_nat (y2 - y1)) y1) as Hs.
    replace (y1 + Z.of_nat (Z.to_nat (y2 - y1))) with y2 in Hs by lia. lia.
  - pose proof (firstMonday_span (Z.to_nat (y1 - y2)) y2) as Hs.
    replace (y2 + Z.of_nat (Z.to_nat (y1 - y2))) with y1 in Hs by lia. lia.
Qed.

Lemma Time_firstMonday (w : Week) (wd : Z) :
  - 2 ^ 40 <= year w <= 2 ^ 40 -> - 2 ^ 40 <= week w <= 2 ^ 40 -> 0 <= wd <= 6 ->
  Time w wd = firstMonday (year w) + 7 * (week w - 1) + (convertToISOWeekday wd - 1).
Proof.
  intros Hy Hw Hwd. rewrite Time_day by assumption. unfold firstMonday. lia.
Qed.

(** X6: [Time] returns a day of the weekday asked for, and the days of
    one week follow each other from Monday to Sunday. *)
Theorem Time_weekday (w : Week) (weekday : time.Weekday) :
  bounded w -> time.Sunday <= weekday <= time.Saturday ->
  time.weekday (Time w weekday) = weekday
  /\ Time w weekday = Time w time.Monday + (convertToISOWeekday weekday - 1).
Proof.
  intros [Hy Hw] Hwd. unfold time.Sunday, time.Saturday in Hwd.
  rewrite !Time_firstMonday by (unfold time.Monday; lia).
  pose proof (firstMonday_monday (year w)) as Hm.
  pose proof (convertToISOWeekday_mod weekday Hwd) as Hk.
  pose proof (convertToISOWeekday_range weekday Hwd) as Hr.
  split.
  - unfold time.weekday, time.Monday in *. rewrite <- Hk at 2.
    revert Hm. Z.div_mod_to_equations. lia.
  - change (convertToISOWeekday time.Monday) with 1. lia.
Qed.

Lemma Time_weekday_witness :
  (bounded (mkWeek 2021 1) /\ time.Sunday <= time.Sunday <= time.Saturday)
  /\ time.weekday (Time (mkWeek 2021 1) time.Sunday) = time.Sunday
  /\ Time (mkWeek 2021 1) time.Sunday
     = Time (mkWeek 2021 1) time.Monday + (convertToISOWeekday time.Sunday - 1).
Proof.
  assert (Hb : bounded (mkWeek 2021 1)) by (unfold bounded; cbn [year week]; lia).
  assert (Hd : time.Sunday <= time.Sunday <= time.Saturday)
    by (unfold time.Sunday, time.Saturday; lia).
  split; [exact (conj Hb Hd)|].
  exact (Time_weekday (mkWeek 2021 1) time.Sunday Hb Hd).
Defined.

(** X7: the days that [Time] returns for two weeks, on the same weekday,
    are seven times the result of [Sub] apart, across any number of
    years. *)
Theorem Time_days_between (a b : Week) (weekday : time.Weekday) :
  bounded a -> bounded b -> time.Sunday <= weekday <= time.Saturday ->
  exists n, Sub a b = Ret n /\ Time b weekday = Time a weekday + 7 * n.
Proof.
  intros Ha Hb Hwd. unfold time.Sunday, time.Saturday in Hwd.
  exists (weekIndex b - weekIndex a).
  split; [exact (Sub_bounded a b Ha Hb)|].
  destruct Ha as [Hya Hwa], Hb as [Hyb Hwb].
  rewrite !Time_firstMonday by lia.
  pose proof (firstMonday_diff (year a) (year b)). unfold weekIndex. lia.
Qed.

Lemma Time_days_between_witness :
  (bounded (mkWeek 2015 50) /\ bounded (mkWeek 2016 7)
   /\ time.Sunday <= time.Friday <= time.Saturday)
  /\ exists n, Sub (mkWeek 2015 50) (mkWeek 2016 7) = Ret n
               /\ Time (mkWeek 2016 7) time.Friday
                  = Time (mkWeek 2015 50) time.Friday + 7 * n.
Proof.
  assert (Ha : bounded (mkWeek 2015 50)) by (unfold bounded; cbn [year week]; lia).
  assert (Hb : bounded (mkWeek 2016 7)) by (unfold bounded; cbn [year week]; lia).
  assert (Hd : time.Sunday <= time.Friday <= time.Saturday)
    by (unfold time.Sunday, time.Friday, time.Saturday; lia).
  split; [exact (conj Ha (conj Hb Hd))|].
  exact (Time_days_between (mkWeek 2015 50) (mkWeek 2016 7) time.Friday Ha Hb Hd).
Defined.

(** The week of a day, and the day from the week and the weekday. *)
Lemma Time_FromTime_year (t : time.Time) :
  - 2 ^ 40 <= year (FromTime t) <= 2 ^ 40 ->
  Time (FromTime t) (time.weekday t) = t.
Proof.
  intros Hy.
  pose proof (FromTime_week_range t) as Hw.
  pose proof (weeksInYear_range (year (FromTime t))) as HW.
  pose proof (weekday_range t) as Hwd.
  rewrite Time_day by lia.
  revert Hy Hw HW. unfold FromTime, time.ISOWeek. cbv zeta.
  set (d := if time.Thursday - time.weekday t =? 4 then -3
            else time.Thursday - time.weekday t).
  assert (Hd : d = 4 - convertToISOWeekday (time.weekday t)).
  { unfold d, convertToISOWeekday, time.Thursday, time.Sunday.
    destruct (Z.eqb_spec (time.weekday t) 0) as [-> | Hne]; [reflexivity|].
    destruct (Z.eqb_spec (4 - time.weekday t) 4); lia. }
  assert (Hthu : (t + d + 1) mod 7 = 4).
  { unfold d, time.Thursday, time.weekday.
    destruct (Z.eqb_spec (4 - (t + 1) mod 7) 4); Z.div_mod_to_equations; lia. }
  destruct (time.absDate (t + d)) as [y o] eqn:E. cbn [year week].
  apply absDate_sound in E. destruct E as [E Ho]. intros Hy Hw HW.
  pose proof (weekday_range (time.daysSinceEpoch y + 3)) as Hj0.
  pose proof (convertToISOWeekday_range _ Hj0) as Hj.
  pose proof (convertToISOWeekday_mod _ Hj0) as Hjm.
  set (j := convertToISOWeekday (time.weekday (time.daysSinceEpoch y + 3))) in *.
  unfold time.weekday in Hjm. rewrite E in Hthu.
  revert Hjm Hthu. Z.div_mod_to_equations. lia.
Qed.

(** X8: [Time] undoes [FromTime]: the week of a day and the weekday of
    the day give the day back. *)
Theorem Time_FromTime_round_trip (t : time.Time) :
  - 2 ^ 40 <= t <= 2 ^ 40 ->
  Time (FromTime t) (time.weekday t) = t.
Proof.
  intros Ht. apply Time_FromTime_year.
  unfold FromTime, time.ISOWeek. cbv zeta.
  set (d := if time.Thursday - time.weekday t =? 4 then -3
            else time.Thursday - time.weekday t).
  assert (Hd : - 3 <= d <= 4).
  { pose proof (weekday_range t). unfold d, time.Thursday.
    destruct (Z.eqb_spec (4 - time.weekday t) 4); lia. }
  destruct (time.absDate (t + d)) as [y o] eqn:E. cbn [year].
  apply absDate_sound in E. destruct E as [E Ho].
  pose proof (daysIn_range y).
  revert E. unfold time.daysSinceEpoch. cbv zeta. Z.div_mod_to_equations. lia.
Qed.

Lemma Time_FromTime_round_trip_witness :
  - 2 ^ 40 <= time.Date 2021 1 3 <= 2 ^ 40
  /\ Time (FromTime (time.Date 2021 1 3)) (time.weekday (time.Date 2021 1 3))
     = time.Date 2021 1 3.
Proof.
  assert (H : - 2 ^ 40 <= time.Date 2021 1 3 <= 2 ^ 40).
  { assert (E : time.Date 2021 1 3 = 737792) by (vm_compute; reflexivity).
    rewrite E. lia. }
  split; [exact H|]. exact (Time_FromTime_round_trip (time.Date 2021 1 3) H).
Defined.

(** X9: seven days later is the next week: when the weeks of a day and
    of the day a week after it both lie in the supported years, [Next] of
    the first is the second. *)
Theorem FromTime_next_week (t : time.Time) :
  valid (FromTime t) -> valid (FromTime (t + 7)) ->
  Next (FromTime t) = Ret (FromTime (t + 7), None).
Proof.
  intros Ha Hb.
  pose proof (Time_FromTime_year t) as Ht.
  pose proof (Time_FromTime_year (t + 7)) as Ht'.
  assert (Hwd : time.weekday (t + 7) = time.weekday t).
  { unfold time.weekday. Z.div_mod_to_equations. lia. }
  rewrite Hwd in Ht'.
  pose proof (weekday_range t) as Hr.
  destruct Ha as [Hya Hwa], Hb as [Hyb Hwb].
  pose proof (weeksInYear_range (year (FromTime t))).
  pose proof (weeksInYear_range (year (FromTime (t + 7)))).
  rewrite Time_firstMonday in Ht by lia. rewrite Time_firstMonday in Ht' by lia.
  specialize (Ht ltac:(lia)). specialize (Ht' ltac:(lia)).
  pose proof (firstMonday_diff (year (FromTime t)) (year (FromTime (t + 7)))) as Hdiff.
  assert (Hd : GoInt.inRange 1)
    by (unfold GoInt.inRange, GoInt.minInt, GoInt.maxInt; lia).
  unfold Next, Add.
  rewrite (add_at_index (FromTime t) 1 (year (FromTime (t + 7))) (week (FromTime (t + 7)))).
  - rewrite New_ok by assumption. destruct (FromTime (t + 7)); reflexivity.
  - split; assumption.
  - exact Hd.
  - exact Hwb.
  - unfold weekIndex. lia.
Qed.

Lemma FromTime_next_week_witness :
  (valid (FromTime (time.Date 2020 12 30)) /\ valid (FromTime (time.Date 2020 12 30 + 7)))
  /\ Next (FromTime (time.Date 2020 12 30))
     = Ret (FromTime (time.Date 2020 12 30 + 7), None).
Proof.
  assert (Ha : valid (FromTime (time.Date 2020 12 30))).
  { assert (E : FromTime (time.Date 2020 12 30) = mkWeek 2020 53)
      by (vm_compute; reflexivity).
    rewrite E. unfold valid. cbn [year week].
    assert (E' : weeksInYear 2020 = 53) by (vm_compute; reflexivity). rewrite E'. lia. }
  assert (Hb : valid (FromTime (time.Date 2020 12 30 + 7))).
  { assert (E : FromTime (time.Date 2020 12 30 + 7) = mkWeek 2021 1)
      by (vm_compute; reflexivity).
    rewrite E. unfold valid. cbn [year week].
    assert (E' : weeksInYear 2021 = 52) by (vm_compute; reflexivity). rewrite E'. lia. }
  split; [exact (conj Ha Hb)|].
  exact (FromTime_next_week (time.Date 2020 12 30) Ha Hb).
Defined.

Lemma Date_december (y d : Z) :
  time.Date y 12 d = time.daysSinceEpoch y + time.daysIn y - 32 + d.
Proof.
  unfold time.Date, time.daysIn. cbv zeta.
  change (12 - 1) with 11. change (11 / 12) with 0. change (11 mod 12) with 11.
  change (2 <=? 11) with true. rewrite andb_true_r, !Z.add_0_r.
  change (nth (Z.to_nat 11) time.daysBefore 0) with 334.
  destruct (time.isLeap y); lia.
Qed.

(** X10: in every year, 4 January lies in week 1 and 28 December in the
    last week that validation accepts for the year: [FromTime] reaches
    both ends of the range of [New]. *)
Theorem FromTime_first_last_week (y : Z) :
  FromTime (time.Date y 1 4) = mkWeek y 1
  /\ FromTime (time.Date y 12 28) = mkWeek y (weeksInYear y).
Proof.
  rewrite Date_january, Date_december.
  pose proof (daysIn_range y) as Hdays.
  pose proof (weeksInYear_range y) as HW.
  pose proof (weeksInYear_53 y) as H53.
  unfold FromTime, time.ISOWeek. cbv zeta. split.
  - set (t := time.daysSinceEpoch y + (4 - 1)).
    pose proof (weekday_range t) as Hr.
    set (d := if time.Thursday - time.weekday t =? 4 then -3
              else time.Thursday - time.weekday t).
    assert (Hd : - 3 <= d <= 3).
    { unfold d, time.Thursday. destruct (Z.eqb_spec (4 - time.weekday t) 4); lia. }
    replace (t + d) with (time.daysSinceEpoch y + (3 + d)) by (unfold t; lia).
    rewrite absDate_complete by lia. f_equal.
    Z.div_mod_to_equations. lia.
  - set (t := time.daysSinceEpoch y + time.daysIn y - 32 + 28).
    pose proof (weekday_range t) as Hr.
    set (d := if time.Thursday - time.weekday t =? 4 then -3
              else time.Thursday - time.weekday t).
    assert (Hd : - 3 <= d <= 3).
    { unfold d, time.Thursday. destruct (Z.eqb_spec (4 - time.weekday t) 4); lia. }
    assert (Hthu : (t + d + 1) mod 7 = 4).
    { unfold d, time.Thursday, time.weekday.
      destruct (Z.eqb_spec (4 - (t + 1) mod 7) 4); Z.div_mod_to_equations; lia. }
    replace (t + d) with (time.daysSinceEpoch y + (time.daysIn y - 4 + d))
      by (unfold t; lia).
    rewrite absDate_complete by lia. f_equal.
    unfold t in Hthu. clear Hr. clearbody d.
    destruct (Z.eq_dec (weeksInYear y) 53) as [E | E].
    + rewrite E. apply H53 in E. unfold time.daysIn in *.
      revert E Hthu. destruct (time.isLeap y); Z.div_mod_to_equations; lia.
    + assert (EW : weeksInYear y = 52) by lia. rewrite EW.
      assert (Hn : ~ ((time.daysSinceEpoch y + 1) mod 7 = 4
                      \/ (time.daysSinceEpoch y + time.daysIn y) mod 7 = 4))
        by (intros H; apply E; apply H53; exact H).
      unfold time.daysIn in *.
      revert Hn Hthu. destruct (time.isLeap y); Z.div_mod_to_equations; lia.
Qed.

(** X11: for an ordinal that leaves its year by less than a year on
    either side, [normalizeOrdinal] returns a day of the year it names,
    which is the same calendar day, and normalising again changes
    nothing. *)
Theorem normalizeOrdinal_in_year (y o : Z) :
  - 2 ^ 40 <= y <= 2 ^ 40 ->
  1 - time.daysIn (y - 1) <= o <= time.daysIn y + time.daysIn (y + 1) ->
  1 <= snd (normalizeOrdinal y o) <= time.daysIn (fst (normalizeOrdinal y o))
  /\ time.Date (fst (normalizeOrdinal y o)) 1 (snd (normalizeOrdinal y o))
     = time.Date y 1 o
  /\ normalizeOrdinal (fst (normalizeOrdinal y o)) (snd (normalizeOrdinal y o))
     = normalizeOrdinal y o.
Proof.
  intros Hy Ho.
  pose proof (daysIn_range (y - 1)). pose proof (daysIn_range y).
  pose proof (daysIn_range (y + 1)).
  pose proof (normalizeOrdinal_day y o Hy ltac:(lia)) as Hday.
  rewrite !Date_january.
  assert (Hin : 1 <= snd (normalizeOrdinal y o)
                <= time.daysIn (fst (normalizeOrdinal y o))).
  { unfold normalizeOrdinal. cbv zeta. rewrite !isLeapYear_isLeap.
    destruct (Z.ltb_spec o 1).
    - assert (Hy1 : GoInt.sub y 1 = y - 1) by (unwrap; lia).
      rewrite Hy1. cbn [fst snd]. unfold time.daysIn in *.
      destruct (time.isLeap (y - 1)); unwrap; lia.
    - unfold time.daysIn in *.
      destruct (time.isLeap y) eqn:L;
        match goal with |- context [?a >? ?b] => destruct (Z.gtb_spec a b) end;
        cbn [fst snd]; unwrap; rewrite ?L; destruct (time.isLeap (y + 1)); lia. }
  split; [exact Hin|]. split; [lia|].
  destruct (normalizeOrdinal y o) as [y' o'] eqn:E. cbn [fst snd] in *.
  unfold normalizeOrdinal. cbv zeta. rewrite !isLeapYear_isLeap.
  destruct (Z.ltb_spec o' 1); [lia|].
  unfold time.daysIn in Hin.
  destruct (time.isLeap y');
    match goal with |- context [?a >? ?b] => destruct (Z.gtb_spec a b) end;
    try lia; reflexivity.
Qed.

Lemma normalizeOrdinal_in_year_witness :
  (- 2 ^ 40 <= 2021 <= 2 ^ 40
   /\ 1 - time.daysIn (2021 - 1) <= -2 <= time.daysIn 2021 + time.daysIn (2021 + 1))
  /\ 1 <= snd (normalizeOrdinal 2021 (-2))
     <= time.daysIn (fst (normalizeOrdinal 2021 (-2)))
  /\ time.Date (fst (normalizeOrdinal 2021 (-2))) 1 (snd (normalizeOrdinal 2021 (-2)))
     = time.Date 2021 1 (-2)
  /\ normalizeOrdinal (fst (normalizeOrdinal 2021 (-2))) (snd (normalizeOrdinal 2021 (-2)))
     = normalizeOrdinal 2021 (-2).
Proof.
  assert (Hy : - 2 ^ 40 <= 2021 <= 2 ^ 40) by lia.
  assert (Ho : 1 - time.daysIn (2021 - 1) <= -2
               <= time.daysIn 2021 + time.daysIn (2021 + 1)).
  { assert (E1 : time.daysIn (2021 - 1) = 366) by (vm_compute; reflexivity).
    assert (E2 : time.daysIn 2021 = 365) by (vm_compute; reflexivity).
    assert (E3 : time.daysIn (2021 + 1) = 365) by (vm_compute; reflexivity).
    rewrite E1, E2, E3. lia. }
  split; [exact (conj Hy Ho)|].
  exact (normalizeOrdinal_in_year 2021 (-2) Hy Ho).
Defined.

(** ** Further properties of the serialization surfaces *)

Lemma len_quoted (data : list byte) : len (x22 :: data ++ [x22]) = len data + 2.
Proof. unfold len. cbn [List.length]. rewrite length_app. cbn [List.length]. lia. Qed.

Lemma index_first (b : byte) (data : list byte) : index (b :: data) 0 = Ret b.
Proof.
  unfold index, len. cbn [List.length].
  destruct (Z.leb_spec (Z.of_nat (S (List.length data))) 0); [lia|]. reflexivity.
Qed.

Lemma index_last (b c : byte) (data : list byte) :
  index (b :: data ++ [c]) (len (b :: data ++ [c]) - 1) = Ret c.
Proof.
  assert (Hlen : len (b :: data ++ [c]) = Z.of_nat (List.length data) + 2).
  { unfold len. cbn [List.length]. rewrite length_app. cbn [List.length]. lia. }
  unfold index. rewrite Hlen.
  destruct (Z.ltb_spec (Z.of_nat (List.length data) + 2 - 1) 0); [lia|].
  destruct (Z.leb_spec (Z.of_nat (List.length data) + 2)
              (Z.of_nat (List.length data) + 2 - 1)); [lia|].
  cbn [orb].
  replace (Z.to_nat (Z.of_nat (List.length data) + 2 - 1))
    with (S (List.length data)) by lia.
  cbn [nth]. rewrite app_nth2 by lia. now rewrite Nat.sub_diag.
Qed.

Lemma slice_inner (b c : byte) (data : list byte) :
  slice (b :: data ++ [c]) 1 (len (b :: data ++ [c]) - 1) = Ret data.
Proof.
  assert (Hlen : len (b :: data ++ [c]) = Z.of_nat (List.length data) + 2).
  { unfold len. cbn [List.length]. rewrite length_app. cbn [List.length]. lia. }
  unfold slice. rewrite Hlen.
  destruct (Z.ltb_spec (Z.of_nat (List.length data) + 2 - 1) 1); [lia|].
  destruct (Z.ltb_spec (Z.of_nat (List.length data) + 2)
              (Z.of_nat (List.length data) + 2 - 1)); [lia|].
  cbn [orb Z.ltb Z.compare].
  replace (Z.to_nat (Z.of_nat (List.length data) + 2 - 1 - 1))
    with (List.length data) by lia.
  change (Z.to_nat 1) with 1%nat. cbn [skipn].
  rewrite firstn_app, firstn_all, Nat.sub_diag. cbn [firstn].
  now rewrite app_nil_r.
Qed.

(** Between double quotes, [UnmarshalJSON] decodes what is between them. *)
Lemma UnmarshalJSON_quoted (r : Week) (data : list byte) :
  UnmarshalJSON r (x22 :: data ++ [x22])
  = Ret (match decodeISOWeekDate data with
         | (_, _, Some err) => (r, Some (Wrap err "unable to unmarshal json"))
         | (y, wk, None) => (mkWeek y wk, None)
         end).
Proof.
  unfold UnmarshalJSON.
  rewrite index_first. cbn [bind]. change (Byte.eqb x22 x22) with true. cbn [negb].
  rewrite index_last. cbn [bind]. change (Byte.eqb x22 x22) with true. cbn [negb].
  rewrite slice_inner. cbn [bind].
  destruct (decodeISOWeekDate data) as [[y wk] [err|]]; reflexivity.
Qed.

(** X12: on a JSON string literal, [UnmarshalJSON] does what
    [UnmarshalText] does on the bytes between the quotes: the same week on
    success, and on failure an error with the same cause, the receiver
    left as it was. *)
Theorem UnmarshalJSON_as_UnmarshalText (r : Week) (data : list byte) :
  (forall w, UnmarshalText r data = (w, None) ->
             UnmarshalJSON r (x22 :: data ++ [x22]) = Ret (w, None))
  /\ (forall w e, UnmarshalText r data = (w, Some e) ->
                  exists e', UnmarshalJSON r (x22 :: data ++ [x22]) = Ret (r, Some e')
                             /\ Cause e' = Cause e).
Proof.
  rewrite UnmarshalJSON_quoted. unfold UnmarshalText.
  destruct (decodeISOWeekDate data) as [[y wk] [err|]]; split.
  - discriminate.
  - intros w e H. injection H as _ <-. eexists. split; reflexivity.
  - intros w H. injection H as <-. reflexivity.
  - discriminate.
Qed.

Lemma UnmarshalJSON_as_UnmarshalText_witness :
  UnmarshalText zeroWeek (list_byte_of_string "2021-W52") = (mkWeek 2021 52, None)
  /\ UnmarshalJSON zeroWeek (x22 :: list_byte_of_string "2021-W52" ++ [x22])
     = Ret (mkWeek 2021 52, None).
Proof.
  assert (H : UnmarshalText zeroWeek (list_byte_of_string "2021-W52")
              = (mkWeek 2021 52, None)) by (vm_compute; reflexivity).
  split; [exact H|].
  exact (proj1 (UnmarshalJSON_as_UnmarshalText zeroWeek (list_byte_of_string "2021-W52"))
           (mkWeek 2021 52) H).
Defined.

Lemma UnmarshalJSON_unquoted (r : Week) (b c : byte) (data : list byte) :
  b <> x22 \/ c <> x22 ->
  UnmarshalJSON r (b :: data ++ [c])
  = Ret (r, Some (errors.New "unable to unmarshal json: string literal expected")).
Proof.
  intros H. unfold UnmarshalJSON. rewrite index_first. cbn [bind].
  destruct (Byte.eqb b x22) eqn:Eb; cbn [negb bind]; [|reflexivity].
  rewrite index_last. cbn [bind].
  destruct (Byte.eqb c x22) eqn:Ec; cbn [negb]; [|reflexivity].
  apply Byte.byte_dec_bl in Eb. apply Byte.byte_dec_bl in Ec.
  destruct H as [H | H]; contradiction.
Qed.

Lemma UnmarshalJSON_single (r : Week) (b : byte) :
  b <> x22 ->
  UnmarshalJSON r [b]
  = Ret (r, Some (errors.New "unable to unmarshal json: string literal expected")).
Proof.
  intros Hb. unfold UnmarshalJSON. rewrite index_first. cbn [bind].
  destruct (Byte.eqb b x22) eqn:Eb; cbn [negb bind]; [|reflexivity].
  apply Byte.byte_dec_bl in Eb. contradiction.
Qed.

(** X13: an input of two bytes or more that does not both start and end
    with a double quote ([null], a number, an object) is refused with the
    error "string literal expected", which wraps nothing, and the receiver
    is left as it was; so is a single byte other than a double quote. *)
Theorem UnmarshalJSON_not_a_literal (r : Week) (b c : byte) (data : list byte) :
  b <> x22 \/ c <> x22 ->
  UnmarshalJSON r (b :: data ++ [c])
  = Ret (r, Some (errors.New "unable to unmarshal json: string literal expected"))
  /\ (b <> x22 ->
      UnmarshalJSON r [b]
      = Ret (r, Some (errors.New "unable to unmarshal json: string literal expected"))).
Proof.
  intros H. split.
  - exact (UnmarshalJSON_unquoted r b c data H).
  - exact (UnmarshalJSON_single r b).
Qed.

Lemma UnmarshalJSON_not_a_literal_witness :
  (x6e <> x22 \/ x6c <> x22)
  /\ UnmarshalJSON (mkWeek 2021 5) (x6e :: [x75; x6c] ++ [x6c])
     = Ret (mkWeek 2021 5,
            Some (errors.New "unable to unmarshal json: string literal expected")).
Proof.
  assert (H : x6e <> x22 \/ x6c <> x22) by (left; discriminate).
  split; [exact H|].
  exact (proj1 (UnmarshalJSON_not_a_literal (mkWeek 2021 5) x6e x6c [x75; x6c] H)).
Defined.

(** X14: for a valid week [MarshalJSON] returns the token of
    [MarshalText] between double quotes, 10 bytes in all, and
    [UnmarshalJSON] restores the week from it, whatever the receiver
    held. *)
Theorem MarshalJSON_UnmarshalJSON_round_trip (w : Week) :
  valid w ->
  exists text,
    MarshalText w = (text, None)
    /\ MarshalJSON w = (x22 :: text ++ [x22], None)
    /\ len (x22 :: text ++ [x22]) = 10
    /\ forall r, UnmarshalJSON r (x22 :: text ++ [x22]) = Ret (w, None).
Proof.
  intros [Hy Hw].
  destruct (encode_decode (year w) (week w) Hy Hw) as (text & Henc & Hlen & Hdec).
  exists text. unfold MarshalText, MarshalJSON. rewrite Henc.
  repeat split.
  - rewrite len_quoted. lia.
  - intros r. rewrite UnmarshalJSON_quoted, Hdec. destruct w; reflexivity.
Qed.

Lemma MarshalJSON_UnmarshalJSON_round_trip_witness :
  valid (mkWeek 2021 52)
  /\ exists text,
       MarshalText (mkWeek 2021 52) = (text, None)
       /\ MarshalJSON (mkWeek 2021 52) = (x22 :: text ++ [x22], None)
       /\ len (x22 :: text ++ [x22]) = 10
       /\ forall r, UnmarshalJSON r (x22 :: text ++ [x22]) = Ret (mkWeek 2021 52, None).
Proof.
  assert (Hv : valid (mkWeek 2021 52)).
  { unfold valid. cbn [year week].
    assert (E : weeksInYear 2021 = 52) by (vm_compute; reflexivity). rewrite E. lia. }
  split; [exact Hv|]. exact (MarshalJSON_UnmarshalJSON_round_trip (mkWeek 2021 52) Hv).
Defined.

(** X15: for a valid week [Value] returns the token of [MarshalText], and
    [Scan] restores the week from it, given as bytes or as a string,
    whatever the receiver held. *)
Theorem Value_Scan_round_trip (w : Week) :
  valid w ->
  exists text,
    Value w = (text, None)
    /\ MarshalText w = (text, None)
    /\ forall r, Scan r (AnyBytes text) = (w, None)
                 /\ Scan r (AnyString (string_of_list_byte text)) = (w, None).
Proof.
  intros [Hy Hw].
  destruct (encode_decode (year w) (week w) Hy Hw) as (text & Henc & Hlen & Hdec).
  exists text. unfold Value, MarshalText. rewrite Henc.
  repeat split; cbn [Scan]; rewrite ?list_byte_of_string_of_list_byte, Hdec;
    destruct w; reflexivity.
Qed.

Lemma Value_Scan_round_trip_witness :
  valid (mkWeek 2021 52)
  /\ exists text,
       Value (mkWeek 2021 52) = (text, None)
       /\ MarshalText (mkWeek 2021 52) = (text, None)
       /\ forall r, Scan r (AnyBytes text) = (mkWeek 2021 52, None)
                    /\ Scan r (AnyString (string_of_list_byte text))
                       = (mkWeek 2021 52, None).
Proof.
  assert (Hv : valid (mkWeek 2021 52)).
  { unfold valid. cbn [year week].
    assert (E : weeksInYear 2021 = 52) by (vm_compute; reflexivity). rewrite E. lia. }
  split; [exact Hv|]. exact (Value_Scan_round_trip (mkWeek 2021 52) Hv).
Defined.

(** X16: the three encoders refuse the same weeks, those that validation
    refuses (the zero week, a week of [FromTime] outside the supported
    years): each returns no bytes and an error that wraps the error of
    validation under its own message. *)
Theorem Marshal_invalid_week (w : Week) :
  ~ valid w ->
  exists cause,
    checkYearAndWeek (year w) (week w) = Some cause
    /\ MarshalText w = ([], Some (Wrap cause "unable to marshal text"))
    /\ MarshalJSON w = ([], Some (Wrap cause "unable to marshal json"))
    /\ Value w = ([], Some (Wrap cause "unable to create value")).
Proof.
  intros Hn. unfold MarshalText, MarshalJSON, Value, encodeISOWeekDate.
  destruct (checkYearAndWeek (year w) (week w)) as [cause|] eqn:E.
  - exists cause. repeat split.
  - exfalso. apply Hn. apply checkYearAndWeek_ok in E. exact E.
Qed.

Lemma Marshal_invalid_week_witness :
  ~ valid zeroWeek
  /\ exists cause,
       checkYearAndWeek (year zeroWeek) (week zeroWeek) = Some cause
       /\ MarshalText zeroWeek = ([], Some (Wrap cause "unable to marshal text"))
       /\ MarshalJSON zeroWeek = ([], Some (Wrap cause "unable to marshal json"))
       /\ Value zeroWeek = ([], Some (Wrap cause "unable to create value")).
Proof.
  assert (Hn : ~ valid zeroWeek).
  { unfold valid. cbn [zeroWeek year week]. lia. }
  split; [exact Hn|]. exact (Marshal_invalid_week zeroWeek Hn).
Defined.

Lemma byte_quote_dec (b : byte) : b = x22 \/ b <> x22.
Proof.
  destruct (Byte.eqb b x22) eqn:E.
  - left. exact (Byte.byte_dec_bl _ _ E).
  - right. intros ->. discriminate E.
Qed.

(** X17: [UnmarshalJSON] returns, with a week or with an error, on every
    input except the two on which it panics, the empty one and the single
    double quote. *)
Theorem UnmarshalJSON_returns_unless_short (r : Week) (data : list byte) :
  data <> [] -> data <> [x22] ->
  exists w e, UnmarshalJSON r data = Ret (w, e).
Proof.
  intros Hne Hnq. destruct data as [|b rest]; [contradiction|].
  destruct rest as [|b' rest'].
  - destruct (byte_quote_dec b) as [-> | Hb]; [contradiction|].
    rewrite UnmarshalJSON_single by exact Hb. eexists. eexists. reflexivity.
  - destruct (exists_last (l := b' :: rest') ltac:(discriminate)) as (mid & c & E).
    rewrite E.
    destruct (byte_quote_dec b) as [-> | Hb].
    + destruct (byte_quote_dec c) as [-> | Hc].
      * rewrite UnmarshalJSON_quoted.
        destruct (decodeISOWeekDate mid) as [[y wk] [err|]];
          eexists; eexists; reflexivity.
      * rewrite UnmarshalJSON_unquoted by (right; exact Hc).
        eexists. eexists. reflexivity.
    + rewrite UnmarshalJSON_unquoted by (left; exact Hb).
      eexists. eexists. reflexivity.
Qed.

Lemma UnmarshalJSON_returns_unless_short_witness :
  ([x6e; x75; x6c; x6c] <> [] /\ [x6e; x75; x6c; x6c] <> [x22])
  /\ exists w e, UnmarshalJSON zeroWeek [x6e; x75; x6c; x6c] = Ret (w, e).
Proof.
  assert (H1 : [x6e; x75; x6c; x6c] <> []) by discriminate.
  assert (H2 : [x6e; x75; x6c; x6c] <> [x22]) by discriminate.
  split; [exact (conj H1 H2)|].
  exact (UnmarshalJSON_returns_unless_short zeroWeek [x6e; x75; x6c; x6c] H1 H2).
Defined.

(** X18: adding [d] weeks moves the day of every weekday by [7 * d]
    days: the day that [Time] returns for the week that [Add] returns is
    [7 * d] days after the day of the week it started from. *)
Theorem Time_after_Add (w r : Week) (d : Z) (weekday : time.Weekday) :
  valid w -> GoInt.inRange d -> time.Sunday <= weekday <= time.Saturday ->
  Add w d = Ret (r, None) ->
  Time r weekday = Time w weekday + 7 * d.
Proof.
  intros Hv Hd Hwd H. unfold time.Sunday, time.Saturday in Hwd. unfold Add in H.
  destruct (add_success w d r Hv Hd H) as [Hr Hi].
  destruct Hv as [Hyw Hww], Hr as [Hyr Hwr].
  pose proof (weeksInYear_range (year w)). pose proof (weeksInYear_range (year r)).
  rewrite !Time_firstMonday by lia.
  pose proof (firstMonday_diff (year w) (year r)). unfold weekIndex in Hi. lia.
Qed.

Lemma Time_after_Add_witness :
  (valid (mkWeek 2015 50) /\ GoInt.inRange 10
   /\ time.Sunday <= time.Friday <= time.Saturday
   /\ Add (mkWeek 2015 50) 10 = Ret (mkWeek 2016 7, None))
  /\ Time (mkWeek 2016 7) time.Friday = Time (mkWeek 2015 50) time.Friday + 7 * 10.
Proof.
  assert (Hv : valid (mkWeek 2015 50)).
  { unfold valid. cbn [year week].
    assert (E : weeksInYear 2015 = 53) by (vm_compute; reflexivity). rewrite E. lia. }
  assert (Hd : GoInt.inRange 10)
    by (unfold GoInt.inRange, GoInt.minInt, GoInt.maxInt; lia).
  assert (Hw : time.Sunday <= time.Friday <= time.Saturday)
    by (unfold time.Sunday, time.Friday, time.Saturday; lia).
  assert (H : Add (mkWeek 2015 50) 10 = Ret (mkWeek 2016 7, None))
    by (vm_compute; reflexivity).
  split; [exact (conj Hv (conj Hd (conj Hw H)))|].
  exact (Time_after_Add (mkWeek 2015 50) (mkWeek 2016 7) 10 time.Friday Hv Hd Hw H).
Defined.
